(** * Kagi API client and MCP tool adapter

    A shallow embedding of [src/api.ts] (class [KagiAPI]), [src/types.ts]
    (class [KagiError] and the parameter records) and [src/index.ts]
    (class [KagiServer] and its [CallToolRequestSchema] handler), followed by
    the properties of the error-normalisation and argument-validation layers.

    Layout: the JavaScript values the code inspects dynamically, the wire
    format of tool arguments, the promise/trace monad, the HTTP client
    instance, the three source files in turn, and then the theorems. *)

From Stdlib Require Import String List Bool ZArith QArith Lia DecimalString.
Import ListNotations.
Open Scope string_scope.

Set Implicit Arguments.

(* ================================================================== *)
(** * JavaScript values *)
(* ================================================================== *)

Module JS.

(** A JavaScript number.  Every finite double is a rational, and the only
    operations the program applies to numbers ([<], [>], truthiness) agree
    with the ones on rationals, so a finite number is carried as its exact
    value; negative zero is the rational zero. *)
Inductive number : Type :=
| NaN
| Infinity (negative : bool)
| Finite (q : Q).

Definition num (z : Z) : number := Finite (inject_Z z).

(** [a < b] on numbers: false as soon as one side is [NaN]. *)
Definition number_lt (a b : number) : bool :=
  match a, b with
  | NaN, _ | _, NaN => false
  | Infinity true, Infinity true => false
  | Infinity true, _ => true
  | _, Infinity true => false
  | Infinity false, _ => false
  | _, Infinity false => true
  | Finite x, Finite y => negb (Qle_bool y x)
  end.

(** [a > b] is [b < a]. *)
Definition number_gt (a b : number) : bool := number_lt b a.

(** Values as the program can observe them: primitives, arrays and plain
    data objects.  An object is its list of own properties in insertion
    order; property names are unique in every object the program builds. *)
#[warnings="-register-all"]
Inductive JSValue : Type :=
| Undefined
| Null
| Boolean (b : bool)
| Number (n : number)
| String (s : string)
| Array (items : list JSValue)
| Object (properties : list (string * JSValue)).

(** The [typeof] operator. *)
Definition typeof (v : JSValue) : string :=
  match v with
  | Undefined => "undefined"
  | Null => "object"
  | Boolean _ => "boolean"
  | Number _ => "number"
  | String _ => "string"
  | Array _ => "object"
  | Object _ => "object"
  end.

(** ToBoolean: [undefined], [null], [false], [0], [NaN] and the empty string
    are falsy, everything else is truthy. *)
Definition truthy (v : JSValue) : bool :=
  match v with
  | Undefined | Null => false
  | Boolean b => b
  | Number NaN => false
  | Number (Infinity _) => true
  | Number (Finite q) => negb (Qeq_bool q 0)
  | String s => negb (s =? "")
  | Array _ | Object _ => true
  end.

Definition nullish (v : JSValue) : bool :=
  match v with
  | Undefined | Null => true
  | _ => false
  end.

Definition is_undefined (v : JSValue) : bool :=
  match v with
  | Undefined => true
  | _ => false
  end.

(** [a || b] *)
Definition or (a b : JSValue) : JSValue := if truthy a then a else b.

(** Own-property lookup in a property list. *)
Fixpoint lookup (key : string) (properties : list (string * JSValue)) : option JSValue :=
  match properties with
  | [] => None
  | (k, v) :: rest => if k =? key then Some v else lookup key rest
  end.

(** Writing a property: an existing one keeps its position and takes the new
    value, a new one is appended. *)
Fixpoint assign (key : string) (value : JSValue) (properties : list (string * JSValue))
  : list (string * JSValue) :=
  match properties with
  | [] => [(key, value)]
  | (k, v) :: rest =>
      if k =? key then (k, value) :: rest else (k, v) :: assign key value rest
  end.

(** An object literal [{k1: v1, ..., kn: vn}] (spread entries included):
    the properties are written in order, a repeated name overwriting. *)
Definition literal (entries : list (string * JSValue)) : JSValue :=
  Object (fold_left (fun acc kv => assign (fst kv) (snd kv) acc) entries []).

(** [v.key] for a value that is neither [undefined] nor [null].  Only data
    properties are modelled: the names the program reads ([response], [data],
    [message], [status], [query], [limit]) are not defined on any built-in
    prototype, so a primitive or an array yields [undefined] for them. *)
Definition member (v : JSValue) (key : string) : JSValue :=
  match v with
  | Object properties =>
      match lookup key properties with
      | Some x => x
      | None => Undefined
      end
  | _ => Undefined
  end.

(** [v?.key] *)
Definition optional_member (v : JSValue) (key : string) : JSValue :=
  if nullish v then Undefined else member v key.

Notation "v ?. key" := (optional_member v key) (at level 20, left associativity).

(** [String(b)] for a boolean. *)
Definition String_of_boolean (b : bool) : string := if b then "true" else "false".

(** The part of the language runtime that is kept abstract: the decimal
    rendering of a number ([Number::toString]). *)
Class Runtime : Type := { NumberToString : number -> string }.

(** ToString.  [None] stands for the [TypeError] raised when an object cannot
    be converted to a primitive: the values here carry no functions, so an
    object that shadows [toString] with a data property has no usable
    conversion method, and any other plain object prints through
    [Object.prototype.toString].  Arrays print as [join(",")], where
    [undefined] and [null] elements print as the empty string. *)
Fixpoint ToString `{Runtime} (v : JSValue) : option string :=
  match v with
  | Undefined => Some "undefined"
  | Null => Some "null"
  | Boolean b => Some (String_of_boolean b)
  | Number n => Some (NumberToString n)
  | String s => Some s
  | Array items =>
      option_map (String.concat ",")
        ((fix parts (l : list JSValue) : option (list string) :=
            match l with
            | [] => Some []
            | x :: rest =>
                match (if nullish x then Some "" else ToString x), parts rest with
                | Some s, Some ss => Some (s :: ss)
                | _, _ => None
                end
            end) items)
  | Object properties =>
      match lookup "toString" properties with
      | Some _ => None
      | None => Some "[object Object]"
      end
  end.

End JS.

Import JS.

(* ================================================================== *)
(** * Tool arguments on the wire *)
(* ================================================================== *)

(** [KagiServer.run] connects the server to a [StdioServerTransport], so the
    arguments of a tool call are the result of [JSON.parse] on a line of
    text: never [undefined], never [NaN], never a function. *)
Module Json.

#[warnings="-register-all"]
Inductive Json : Type :=
| JNull
| JBoolean (b : bool)
| JNumber (q : Q)                      (* a literal within the double range, as the value read *)
| JOverflow (negative : bool)          (* a literal beyond it, such as 1e999: read as an infinity *)
| JString (s : string)
| JArray (items : list Json)
| JObject (members : list (string * Json)).

(** The value [JSON.parse] builds.  Members are defined in order, so of two
    members with one name the later value is kept. *)
Fixpoint parse (j : Json) : JSValue :=
  match j with
  | JNull => Null
  | JBoolean b => Boolean b
  | JNumber q => Number (Finite q)
  | JOverflow negative => Number (Infinity negative)
  | JString s => String s
  | JArray items => Array (map parse items)
  | JObject members => literal (map (fun m => (fst m, parse (snd m))) members)
  end.

(** The value kept for a member name: the last one given. *)
Definition field (key : string) (members : list (string * Json)) : option Json :=
  fold_left (fun found m => if fst m =? key then Some (snd m) else found) members None.

End Json.

Import Json.

(* ================================================================== *)
(** * Exceptions and completions *)
(* ================================================================== *)

(** Fault codes of the tool protocol ([ErrorCode] of the MCP SDK). *)
Inductive ErrorCode : Type :=
| ParseError
| InvalidRequest
| MethodNotFound
| InvalidParams
| InternalError.

(** What a [throw] can carry in this program.  [Error], [KagiError] and
    [McpError] are the classes the sources instantiate; [TypeError] is raised
    by the language itself; [Raised] is any other value, in particular the
    failure object the HTTP transport rejects with. *)
Inductive Thrown : Type :=
| Error (message : string)
| TypeError
| KagiError (message : string) (code : JSValue) (details : JSValue)
| McpError (code : ErrorCode) (message : string)
| Raised (reason : JSValue).

(** [error instanceof KagiError] *)
Definition instanceof_KagiError (error : Thrown) : bool :=
  match error with
  | KagiError _ _ _ => true
  | _ => false
  end.

(** How an evaluation ends.  For an [async] function this is how the promise
    it returns settles: [Return] is fulfilment, [Throw] is rejection. *)
Inductive Completion (A : Type) : Type :=
| Return (a : A)
| Throw (error : Thrown).

Arguments Return {A} a.
Arguments Throw {A} error.

(* ================================================================== *)
(** * The HTTP client instance (axios, at its interface) *)
(* ================================================================== *)

Module Axios.

Inductive Method : Type := GET | POST.

(** [axios.create({baseURL, timeout, headers})] *)
Record CreateConfig : Type := {
  baseURL : string;
  timeout : number;
  headers : list (string * string)
}.

(** A request as handed to the transport: the instance defaults merged with
    the arguments of [get] or [post]. *)
Record RequestConfig : Type := {
  defaults : CreateConfig;
  method : Method;
  url : string;
  params : JSValue;
  data : JSValue
}.

Record Response : Type := {
  response_status : number;
  response_data : JSValue
}.

(** The requests issued so far, oldest first. *)
Definition Trace : Type := list RequestConfig.

(** The backend and the network: what comes back for a request, given what
    was issued before it.  A failure carries the transport's error object
    (for axios an [AxiosError] with [message] and, when the backend answered,
    [response.status] and [response.data]); a non-2xx answer is such a
    failure. *)
Inductive Outcome : Type :=
| Answered (response : Response)
| Failed (error : JSValue).

Class Transport : Type := { adapter : Trace -> RequestConfig -> Outcome }.

(** An asynchronous computation: it may issue requests and settles. *)
Definition Async (A : Type) : Type := Trace -> Completion A * Trace.

Definition resolve {A} (a : A) : Async A := fun t => (Return a, t).
Definition reject {A} (e : Thrown) : Async A := fun t => (Throw e, t).

(** [const x = await m; k x] *)
Definition await {A B} (m : Async A) (k : A -> Async B) : Async B :=
  fun t =>
    match m t with
    | (Return a, t') => k a t'
    | (Throw e, t') => (Throw e, t')
    end.

(** [try { m } catch (error) { handler error }] around awaited code. *)
Definition try_catch {A} (m : Async A) (handler : Thrown -> Async A) : Async A :=
  fun t =>
    match m t with
    | (Return a, t') => (Return a, t')
    | (Throw e, t') => handler e t'
    end.

(** The pair of handlers given to [interceptors.response.use]. *)
Record ResponseInterceptor : Type := {
  onFulfilled : Response -> Completion Response;
  onRejected : JSValue -> Completion Response
}.

(** An instance: its defaults and the response interceptor registered on
    it, if any. *)
Record Instance : Type := {
  instance_defaults : CreateConfig;
  interceptor : option ResponseInterceptor
}.

Definition create (config : CreateConfig) : Instance :=
  {| instance_defaults := config; interceptor := None |}.

Definition use (i : Instance) (h : ResponseInterceptor) : Instance :=
  {| instance_defaults := instance_defaults i; interceptor := Some h |}.

(** Dispatch: the request is recorded and sent, and the outcome goes
    through the interceptor: an answer through [onFulfilled], a failure
    through [onRejected].  Without an interceptor the failure object itself
    is what the caller's promise rejects with. *)
Definition request `{Transport} (i : Instance) (m : Method) (u : string) (p d : JSValue)
  : Async Response :=
  fun t =>
    let config :=
      {| defaults := instance_defaults i; method := m; url := u; params := p; data := d |} in
    (match adapter t config, interceptor i with
     | Answered r, None => Return r
     | Answered r, Some h => onFulfilled h r
     | Failed e, None => Throw (Raised e)
     | Failed e, Some h => onRejected h e
     end, (t ++ [config])%list).

(** [instance.get(url, {params})] *)
Definition get `{Transport} (i : Instance) (u : string) (p : JSValue) : Async Response :=
  request i GET u p Undefined.

(** [instance.post(url, data)] *)
Definition post `{Transport} (i : Instance) (u : string) (d : JSValue) : Async Response :=
  request i POST u Undefined d.

(** What leaves the process for an object of query parameters or a JSON
    body: members whose value is [undefined] are left out by the query-string
    builder and by [JSON.stringify] alike.  (The query-string builder leaves
    out [null] as well; no parameter object of this client holds one.) *)
Definition transmitted (v : JSValue) : list (string * JSValue) :=
  match v with
  | Object properties => filter (fun kv => negb (is_undefined (snd kv))) properties
  | _ => []
  end.

End Axios.

Import Axios.

Notation "'let*' x ':=' m 'in' k" := (await m (fun x => k))
  (at level 10, x name, m at level 100, k at level 200).

(** A field declared optional ([f?: T]), read as a value. *)
Definition optional {A} (inject : A -> JSValue) (field : option A) : JSValue :=
  match field with
  | Some a => inject a
  | None => Undefined
  end.

(** [field || fallback] on an optional string or number field. *)
Definition string_or (field : option string) (fallback : string) : string :=
  match field with
  | Some s => if truthy (String s) then s else fallback
  | None => fallback
  end.

Definition number_or (field : option number) (fallback : number) : number :=
  match field with
  | Some n => if truthy (Number n) then n else fallback
  | None => fallback
  end.

(* ================================================================== *)
(** * src/types.ts *)
(* ================================================================== *)

(** [new KagiError(message, code, details)].  [super(message)] stores the
    string conversion of a message that is not [undefined], and the empty
    string inherited from the prototype otherwise; [code] and [details] are
    stored as given. *)
Definition new_KagiError `{Runtime} (message code details : JSValue) : Completion Thrown :=
  match (if is_undefined message then Some "" else ToString message) with
  | Some text => Return (KagiError text code details)
  | None => Throw TypeError
  end.

Module SearchParams.
Record t : Type := { q : string; limit : option number }.
End SearchParams.

Inductive Engine : Type := cecil | agnes | daphne | muriel.

Definition Engine_name (e : Engine) : string :=
  match e with
  | cecil => "cecil"
  | agnes => "agnes"
  | daphne => "daphne"
  | muriel => "muriel"
  end.

Inductive SummaryType : Type := summary | takeaway.

Definition SummaryType_name (k : SummaryType) : string :=
  match k with
  | summary => "summary"
  | takeaway => "takeaway"
  end.

Module SummarizeParams.
Record t : Type := {
  url : option string;
  text : option string;
  engine : option Engine;
  summary_type : option SummaryType;
  target_language : option string;
  cache : option bool
}.

(** The own properties of a parameter object, as [{...params}] copies
    them: the fields that are present. *)
Definition entries (params : t) : list (string * JSValue) :=
  let present {A} (key : string) (inject : A -> JSValue) (field : option A) :=
    match field with
    | Some a => [(key, inject a)]
    | None => []
    end in
  (present "url" String (url params)
     ++ present "text" String (text params)
     ++ present "engine" (fun e => String (Engine_name e)) (engine params)
     ++ present "summary_type" (fun k => String (SummaryType_name k)) (summary_type params)
     ++ present "target_language" String (target_language params)
     ++ present "cache" Boolean (cache params))%list.
End SummarizeParams.

Module FastGPTParams.
Record t : Type := { query : string; cache : option bool }.
End FastGPTParams.

Module EnrichParams.
Record t : Type := { q : string }.
End EnrichParams.

(** [apiKey] is declared required, but the constructor guards against a
    caller that leaves it out, so it is optional here. *)
Module KagiConfig.
Record t : Type := {
  apiKey : option string;
  baseURL : option string;
  timeout : option number
}.
End KagiConfig.

(* ================================================================== *)
(** * src/api.ts *)
(* ================================================================== *)

Record KagiAPI : Type := { client : Instance }.

Definition DEFAULT_BASE_URL : string := "https://kagi.com/api/v0".
Definition DEFAULT_TIMEOUT : number := num 30000.

(** The rejection handler of the response interceptor:
    [error => { throw new KagiError(error.response?.data?.message || error.message,
                                    error.response?.status, error.response?.data) }].
    Reading [error.response] of [undefined] or [null] is a [TypeError]. *)
Definition normalize `{Runtime} (error : JSValue) : Completion Response :=
  if nullish error then Throw TypeError
  else
    let response := member error "response" in
    match new_KagiError (or (response ?. "data" ?. "message") (member error "message"))
                        (response ?. "status")
                        (response ?. "data") with
    | Return e => Throw e
    | Throw e => Throw e
    end.

(** [new KagiAPI(config)] *)
Definition new_KagiAPI `{Runtime} (config : KagiConfig.t) : Completion KagiAPI :=
  match KagiConfig.apiKey config with
  | None => Throw (Error "API key is required")
  | Some apiKey =>
      if negb (truthy (String apiKey)) then Throw (Error "API key is required")
      else
        let created :=
          create {| baseURL := string_or (KagiConfig.baseURL config) DEFAULT_BASE_URL;
                    timeout := number_or (KagiConfig.timeout config) DEFAULT_TIMEOUT;
                    headers := [("Authorization", "Bot " ++ apiKey);
                                ("Content-Type", "application/json")] |} in
        Return {| client := use created {| onFulfilled := fun response => Return response;
                                           onRejected := normalize |} |}
  end.

Section Operations.
Context `{Runtime} `{Transport}.
Variable this : KagiAPI.

Definition search (params : SearchParams.t) : Async JSValue :=
  let* response :=
    get (client this) "/search"
        (literal [("q", String (SearchParams.q params));
                  ("limit", or (optional Number (SearchParams.limit params))
                               (Number (num 10)))]) in
  resolve (response_data response).

Definition summarize (params : SummarizeParams.t) : Async JSValue :=
  let url := optional String (SummarizeParams.url params) in
  let text := optional String (SummarizeParams.text params) in
  if negb (truthy url) && negb (truthy text)
  then reject (Error "Either url or text parameter is required")
  else if truthy url && truthy text
  then reject (Error "Cannot provide both url and text parameters")
  else
    let* response :=
      get (client this) "/summarize"
          (literal (SummarizeParams.entries params
                    ++ [("cache", match SummarizeParams.cache params with
                                  | Some flag => String (String_of_boolean flag)
                                  | None => Undefined
                                  end)])) in
    resolve (response_data response).

Definition fastgpt (params : FastGPTParams.t) : Async JSValue :=
  let* response :=
    post (client this) "/fastgpt"
         (literal [("query", String (FastGPTParams.query params));
                   ("cache", match FastGPTParams.cache params with
                             | Some flag => String (String_of_boolean flag)
                             | None => Undefined
                             end)]) in
  resolve (response_data response).

Definition enrich (params : EnrichParams.t) : Async JSValue :=
  let* response :=
    get (client this) "/enrich/news"
        (literal [("q", String (EnrichParams.q params))]) in
  resolve (response_data response).

Definition testConnection : Async bool :=
  try_catch
    (let* _ := search {| SearchParams.q := "test"; SearchParams.limit := Some (num 1) |} in
     resolve true)
    (fun _ => resolve false).

End Operations.

(* ================================================================== *)
(** * src/index.ts *)
(* ================================================================== *)

Record KagiServer : Type := { kagiApi : KagiAPI }.

(** [new KagiServer()], given the value of [process.env.KAGI_API_KEY]. *)
Definition new_KagiServer `{Runtime} (KAGI_API_KEY : option string) : Completion KagiServer :=
  if negb (truthy (optional String KAGI_API_KEY))
  then Throw (Error "KAGI_API_KEY environment variable is required")
  else
    match new_KagiAPI {| KagiConfig.apiKey := KAGI_API_KEY;
                         KagiConfig.baseURL := None;
                         KagiConfig.timeout := None |} with
    | Return api => Return {| kagiApi := api |}
    | Throw e => Throw e
    end.

Definition searchTool : JSValue :=
  literal [("name", String "kagi_search");
           ("description", String "Perform web search using Kagi");
           ("inputSchema",
            literal [("type", String "object");
                     ("properties",
                      literal [("query", literal [("type", String "string")]);
                               ("limit", literal [("type", String "number");
                                                  ("default", Number (num 10));
                                                  ("minimum", Number (num 1));
                                                  ("maximum", Number (num 100))])]);
                     ("required", Array [String "query"])])].

(** The handler of [ListToolsRequestSchema]. *)
Definition ListTools : JSValue := literal [("tools", Array [searchTool])].

(** [request.params] of a tool call. *)
Record CallToolRequest : Type := {
  name : string;
  arguments : JSValue
}.

(** A tool call as it is read off the transport. *)
Definition received (tool : string) (args : option Json) : CallToolRequest :=
  {| name := tool; arguments := optional parse args |}.

Section Handlers.
Context `{Runtime} `{Transport}.
Variable this : KagiServer.

(** The [try]/[catch] around the client call (lines 108-119): the result
    payload on success, a soft failure for a [KagiError], and any other
    exception thrown again. *)
Definition try_search (searchParams : SearchParams.t) : Async JSValue :=
  try_catch
    (let* results := search (kagiApi this) searchParams in
     resolve (literal [("toolResult", results)]))
    (fun error =>
       match error with
       | KagiError message _ _ =>
           resolve (literal [("content",
                              Array [literal [("type", String "text");
                                              ("text", String ("Kagi API error: " ++ message))]]);
                             ("isError", Boolean true)])
       | _ => reject error
       end).

(** The handler of [CallToolRequestSchema]. *)
Definition CallTool (request : CallToolRequest) : Async JSValue :=
  if name request =? "kagi_search" then
    if negb (truthy (arguments request)) || negb (typeof (arguments request) =? "object")
    then reject (McpError InvalidParams "Invalid arguments for kagi_search")
    else
      let query := member (arguments request) "query" in
      let limit := member (arguments request) "limit" in
      match query with
      | String query =>
          if negb (is_undefined limit) then
            match limit with
            | Number n =>
                if number_lt n (num 1) || number_gt n (num 100)
                then reject (McpError InvalidParams "Limit must be a number between 1 and 100")
                else try_search {| SearchParams.q := query; SearchParams.limit := Some n |}
            | _ => reject (McpError InvalidParams "Limit must be a number between 1 and 100")
            end
          else try_search {| SearchParams.q := query; SearchParams.limit := None |}
      | _ => reject (McpError InvalidParams "Query must be a string")
      end
  else reject (McpError MethodNotFound "Unknown tool").

End Handlers.

(* ================================================================== *)
(** * Concrete environments *)
(* ================================================================== *)

(** A number renderer for worked examples: exact on [NaN], the infinities
    and the integers the examples print (the language switches to exponent
    notation from 1e21 on).  A fraction, which the examples never print, is
    rendered by its integer part. *)
Definition example_runtime : Runtime :=
  {| NumberToString := fun n =>
       match n with
       | NaN => "NaN"
       | Infinity true => "-Infinity"
       | Infinity false => "Infinity"
       | Finite q => NilZero.string_of_int (Z.to_int (Qnum q / Z.pos (Qden q)))
       end |}.

(** A backend that answers every request with one response. *)
Definition answering (r : Response) : Transport :=
  {| adapter := fun _ _ => Answered r |}.

(** A transport on which every request fails with one error object. *)
Definition failing (error : JSValue) : Transport :=
  {| adapter := fun _ _ => Failed error |}.

Definition ok_response : Response :=
  {| response_status := num 200;
     response_data := literal [("meta", literal []); ("data", Array [])] |}.

(** The error object of a 400 answer whose body reports a message. *)
Definition bad_request (message : JSValue) : JSValue :=
  literal [("message", String "Request failed with status code 400");
           ("response", literal [("status", Number (num 400));
                                 ("data", literal [("message", message)])])].

(** The error object of a failure without any answer. *)
Definition network_error : JSValue :=
  literal [("message", String "Network Error")].

(** A client and a server built with a credential and the defaults. *)
Definition example_config : KagiConfig.t :=
  {| KagiConfig.apiKey := Some "secret";
     KagiConfig.baseURL := None;
     KagiConfig.timeout := None |}.

Definition example_api : KagiAPI :=
  {| client :=
       use (create {| baseURL := DEFAULT_BASE_URL;
                      timeout := DEFAULT_TIMEOUT;
                      headers := [("Authorization", "Bot secret");
                                  ("Content-Type", "application/json")] |})
           {| onFulfilled := fun response => Return response;
              onRejected := @normalize example_runtime |} |}.

Definition example_server : KagiServer := {| kagiApi := example_api |}.

(* ================================================================== *)
(** * Properties of objects and of parsed arguments *)
(* ================================================================== *)

Section ObjectFacts.

Lemma lookup_assign_same key value properties :
  lookup key (assign key value properties) = Some value.
Proof.
  induction properties as [|[k v] rest IH]; simpl.
  - now rewrite String.eqb_refl.
  - destruct (k =? key) eqn:E; simpl; rewrite E; [reflexivity | exact IH].
Qed.

Lemma lookup_assign_other key other value properties :
  other <> key ->
  lookup other (assign key value properties) = lookup other properties.
Proof.
  intros Hne.
  induction properties as [|[k v] rest IH]; simpl.
  - destruct (key =? other) eqn:E; [|reflexivity].
    apply String.eqb_eq in E. congruence.
  - destruct (k =? key) eqn:E; simpl.
    + apply String.eqb_eq in E. subst k.
      destruct (key =? other) eqn:E'; [|reflexivity].
      apply String.eqb_eq in E'. congruence.
    + now rewrite IH.
Qed.

(** The names of an object built by writing properties are distinct. *)
Lemma assign_keys_NoDup key value properties :
  NoDup (map fst properties) -> NoDup (map fst (assign key value properties)).
Proof.
  induction properties as [|[k v] rest IH]; simpl; intros Hnd.
  - constructor; [intros [] | constructor].
  - destruct (k =? key) eqn:E; simpl; [exact Hnd|].
    inversion Hnd as [|? ? Hnotin Hrest]; subst.
    constructor; [|now apply IH].
    intros Hin. apply Hnotin.
    clear - Hin E. induction rest as [|[k' v'] rest IH]; simpl in *.
    + destruct Hin as [Heq|[]]. subst. now rewrite String.eqb_refl in E.
    + destruct (k' =? key) eqn:E'; simpl in Hin; [exact Hin|].
      destruct Hin as [Heq|Hin]; [now left | right; now apply IH].
Qed.

Lemma literal_keys_NoDup entries acc :
  NoDup (map fst acc) ->
  NoDup (map fst (fold_left (fun acc kv => assign (fst kv) (snd kv) acc) entries acc)).
Proof.
  revert acc. induction entries as [|e es IH]; simpl; intros acc Hnd; [exact Hnd|].
  apply IH. now apply assign_keys_NoDup.
Qed.

Lemma lookup_absent key (properties : list (string * JSValue)) :
  ~ In key (map fst properties) -> lookup key properties = None.
Proof.
  induction properties as [|[k v] rest IH]; simpl; intros Hnotin; [reflexivity|].
  destruct (k =? key) eqn:E.
  - apply String.eqb_eq in E. subst. exfalso. apply Hnotin. now left.
  - apply IH. intros Hin. apply Hnotin. now right.
Qed.

Lemma filter_keys_subset (keep : string * JSValue -> bool) key properties :
  In key (map fst (filter keep properties)) -> In key (map fst properties).
Proof.
  induction properties as [|[k v] rest IH]; simpl; [trivial|].
  destruct (keep (k, v)); simpl; intuition.
Qed.

(** Filtering an object after a write: the written property is found
    exactly when the filter keeps it. *)
Lemma lookup_filter_assign (keep : string * JSValue -> bool) key value properties :
  NoDup (map fst properties) ->
  lookup key (filter keep (assign key value properties))
  = if keep (key, value) then Some value else None.
Proof.
  induction properties as [|[k v] rest IH]; simpl; intros Hnd.
  - destruct (keep (key, value)); simpl; [now rewrite String.eqb_refl | reflexivity].
  - inversion Hnd as [|? ? Hnotin Hrest]; subst.
    destruct (k =? key) eqn:E; simpl.
    + apply String.eqb_eq in E. subst k.
      destruct (keep (key, value)); simpl; [now rewrite String.eqb_refl|].
      apply lookup_absent. intros Hin. apply Hnotin.
      now apply filter_keys_subset in Hin.
    + destruct (keep (k, v)); simpl; [rewrite E|]; now apply IH.
Qed.

(** The last value given for a name, starting from a default. *)
Let last_given (key : string) (entries : list (string * JSValue)) (found : option JSValue) :=
  fold_left (fun found e => if fst e =? key then Some (snd e) else found) entries found.

Lemma last_given_default key entries found :
  last_given key entries found
  = match last_given key entries None with
    | Some v => Some v
    | None => found
    end.
Proof.
  revert found. induction entries as [|e es IH]; intros found; simpl; [reflexivity|].
  unfold last_given in *. simpl.
  rewrite (IH (if fst e =? key then Some (snd e) else found)).
  rewrite (IH (if fst e =? key then Some (snd e) else None)).
  destruct (fold_left _ es None); [reflexivity|].
  now destruct (fst e =? key).
Qed.

Lemma lookup_fold_assign key entries acc :
  lookup key (fold_left (fun acc kv => assign (fst kv) (snd kv) acc) entries acc)
  = match last_given key entries None with
    | Some v => Some v
    | None => lookup key acc
    end.
Proof.
  revert acc. induction entries as [|e es IH]; intros acc; simpl; [reflexivity|].
  rewrite IH.
  change (fold_left _ es (if fst e =? key then Some (snd e) else None))
    with (last_given key es (if fst e =? key then Some (snd e) else None)).
  rewrite (last_given_default key es (if fst e =? key then Some (snd e) else None)).
  destruct (last_given key es None); [reflexivity|].
  destruct (fst e =? key) eqn:E.
  - apply String.eqb_eq in E. rewrite <- E. apply lookup_assign_same.
  - apply lookup_assign_other. intros Heq. subst. now rewrite String.eqb_refl in E.
Qed.

(** A member of parsed arguments is the parse of the last member of that
    name, and [undefined] when there is none. *)
Lemma member_parse key members :
  member (parse (JObject members)) key = optional parse (field key members).
Proof.
  simpl. unfold literal, member. rewrite lookup_fold_assign. simpl.
  assert (Hmap : forall found,
             last_given key (map (fun m => (fst m, parse (snd m))) members)
                        (option_map parse found)
             = option_map parse
                 (fold_left (fun found m => if fst m =? key then Some (snd m) else found)
                            members found)).
  { induction members as [|m ms IH]; intros found; simpl; [reflexivity|].
    unfold last_given in *. simpl. rewrite <- IH.
    now destruct (fst m =? key). }
  specialize (Hmap None). simpl in Hmap. rewrite Hmap.
  unfold field. now destruct (fold_left _ members None).
Qed.

End ObjectFacts.

(* ================================================================== *)
(** * The client: requests issued *)
(* ================================================================== *)

Section ClientFacts.
Context `{Transport}.
Variable this : KagiAPI.

(** Settling [await]: the continuation of a fulfilled promise runs on the
    trace the promise left. *)
Lemma await_request {A} i m u p d (k : Response -> Async A) t :
  await (request i m u p d) k t
  = let config :=
      {| defaults := instance_defaults i; method := m; url := u; params := p; data := d |} in
    match fst (request i m u p d t) with
    | Return r => k r (t ++ [config])%list
    | Throw e => (Throw e, (t ++ [config])%list)
    end.
Proof.
  unfold await, request. simpl.
  now destruct (match adapter t _ with Answered _ => _ | Failed _ => _ end).
Qed.

(** [search] issues exactly one request: a GET of [/search] whose [limit]
    is [params.limit || 10]. *)
Lemma search_issues (params : SearchParams.t) t :
  snd (search this params t)
  = (t ++ [{| defaults := instance_defaults (client this);
              method := GET;
              url := "/search";
              Axios.params :=
                literal [("q", String (SearchParams.q params));
                         ("limit", or (optional Number (SearchParams.limit params))
                                      (Number (num 10)))];
              data := Undefined |}])%list.
Proof.
  unfold search, get. rewrite await_request. cbv zeta.
  now destruct (fst (request _ _ _ _ _ t)).
Qed.

End ClientFacts.

(** C7, as amended.  [search] issues one GET of [/search] carrying the query;
    when [limit] is omitted the request carries [limit = 10], and when a
    truthy limit is supplied (any number but zero and [NaN], for instance 5)
    the request carries that limit. *)
Theorem search_limit_carried
  `{Transport} (this : KagiAPI) (query : string) (limit : option number) (t : Trace) :
  exists config,
    snd (search this {| SearchParams.q := query; SearchParams.limit := limit |} t)
    = (t ++ [config])%list
    /\ method config = GET
    /\ url config = "/search"
    /\ member (params config) "q" = String query
    /\ (limit = None -> member (params config) "limit" = Number (num 10))
    /\ (forall n, limit = Some n -> truthy (Number n) = true ->
        member (params config) "limit" = Number n).
Proof.
  eexists. split; [apply search_issues|].
  cbn [method url params SearchParams.q SearchParams.limit].
  repeat split.
  - intros ->. reflexivity.
  - intros n -> Htruthy. cbn [optional]. unfold or. rewrite Htruthy. reflexivity.
Qed.

Lemma search_limit_carried_witness :
  exists config,
    snd (@search (answering ok_response) example_api
           {| SearchParams.q := "typescript"; SearchParams.limit := Some (num 5) |} [])
    = [config]
    /\ member (params config) "limit" = Number (num 5).
Proof.
  destruct (@search_limit_carried (answering ok_response) example_api
              "typescript" (Some (num 5)) [])
    as (config & Htrace & _ & _ & _ & _ & Hsupplied).
  exists config. split; [exact Htrace|].
  apply Hsupplied; reflexivity.
Defined.

(** C7 as stated fails for a supplied limit of zero: the request carries 10. *)
Lemma search_limit_zero_not_carried :
  exists config,
    snd (@search (answering ok_response) example_api
           {| SearchParams.q := "typescript"; SearchParams.limit := Some (num 0) |} [])
    = [config]
    /\ member (params config) "limit" = Number (num 10)
    /\ member (params config) "limit" <> Number (num 0).
Proof.
  eexists. split; [reflexivity|]. split; [reflexivity|]. discriminate.
Qed.

(** C10. A direct [search] call with [limit] equal to zero issues a request
    carrying [limit = 10], and so does a call with any other falsy limit:
    the default replaces every falsy value, not only an absent one. *)
Theorem search_falsy_limit_defaults
  `{Transport} (this : KagiAPI) (query : string) (n : number) (t : Trace) :
  n = num 0 \/ truthy (Number n) = false ->
  exists config,
    snd (search this {| SearchParams.q := query; SearchParams.limit := Some n |} t)
    = (t ++ [config])%list
    /\ method config = GET
    /\ url config = "/search"
    /\ member (params config) "limit" = Number (num 10).
Proof.
  intros Hfalsy.
  assert (Hn : truthy (Number n) = false) by (destruct Hfalsy as [->|]; [reflexivity|assumption]).
  eexists. split; [apply search_issues|].
  cbn [method url params SearchParams.q SearchParams.limit optional].
  repeat split. unfold or. rewrite Hn. reflexivity.
Qed.

Lemma search_falsy_limit_defaults_witness :
  exists config,
    snd (@search (answering ok_response) example_api
           {| SearchParams.q := "typescript"; SearchParams.limit := Some (num 0) |} [])
    = [config]
    /\ method config = GET
    /\ url config = "/search"
    /\ member (params config) "limit" = Number (num 10).
Proof.
  apply (@search_falsy_limit_defaults (answering ok_response) example_api
           "typescript" (num 0) []).
  left. reflexivity.
Defined.

(* ================================================================== *)
(** * The client: construction *)
(* ================================================================== *)

(** C6. Construction is a pure computation (it cannot issue a request) and
    throws as soon as the credential is absent or empty, whatever the other
    fields.  Otherwise the instance defaults carry the header
    [Authorization: Bot <credential>], the JSON content type, the given base
    URL or the default [https://kagi.com/api/v0], and the given timeout or the
    default 30000.  The choice follows [||]: the given base URL is carried
    when it is non-empty and the given timeout when it is truthy (neither
    zero nor [NaN]); the default is carried in every other case. *)
Theorem new_KagiAPI_contract `{Runtime} (config : KagiConfig.t) :
  (KagiConfig.apiKey config = None \/ KagiConfig.apiKey config = Some "" ->
   new_KagiAPI config = Throw (Error "API key is required"))
  /\
  (forall key, KagiConfig.apiKey config = Some key -> key <> "" ->
   exists api,
     new_KagiAPI config = Return api
     /\ headers (instance_defaults (client api))
        = [("Authorization", "Bot " ++ key); ("Content-Type", "application/json")]
     /\ (KagiConfig.baseURL config = Some (baseURL (instance_defaults (client api)))
         \/ baseURL (instance_defaults (client api)) = "https://kagi.com/api/v0")
     /\ (KagiConfig.timeout config = Some (timeout (instance_defaults (client api)))
         \/ timeout (instance_defaults (client api)) = num 30000)
     /\ (forall u, KagiConfig.baseURL config = Some u -> u <> "" ->
         baseURL (instance_defaults (client api)) = u)
     /\ (KagiConfig.baseURL config = None \/ KagiConfig.baseURL config = Some "" ->
         baseURL (instance_defaults (client api)) = "https://kagi.com/api/v0")
     /\ (forall n, KagiConfig.timeout config = Some n -> truthy (Number n) = true ->
         timeout (instance_defaults (client api)) = n)
     /\ (KagiConfig.timeout config = None
         \/ (exists n, KagiConfig.timeout config = Some n /\ truthy (Number n) = false) ->
         timeout (instance_defaults (client api)) = num 30000)).
Proof.
  destruct config as [apiKey baseURL timeout].
  cbn [KagiConfig.apiKey KagiConfig.baseURL KagiConfig.timeout].
  split.
  - intros [->| ->]; reflexivity.
  - intros key -> Hkey. unfold new_KagiAPI.
    cbn [KagiConfig.apiKey KagiConfig.baseURL KagiConfig.timeout truthy].
    apply String.eqb_neq in Hkey. rewrite Hkey. cbn [negb].
    eexists. split; [reflexivity|].
    cbn [client use create instance_defaults Axios.headers Axios.baseURL Axios.timeout].
    split; [reflexivity|]. repeat split.
    + destruct baseURL as [u|]; [|now right]. cbn [string_or truthy].
      destruct (u =? ""); [now right | now left].
    + destruct timeout as [n|]; [|now right]. cbn [number_or].
      destruct (truthy (Number n)); [now left | now right].
    + intros u -> Hu. cbn [string_or truthy]. apply String.eqb_neq in Hu. now rewrite Hu.
    + intros [-> | ->]; reflexivity.
    + intros n -> Hn. cbn [number_or truthy]. now rewrite Hn.
    + intros [->|(n & -> & Hn)]; [reflexivity|]. cbn [number_or truthy]. now rewrite Hn.
Qed.

Lemma new_KagiAPI_contract_witness :
  @new_KagiAPI example_runtime
    {| KagiConfig.apiKey := None;
       KagiConfig.baseURL := Some "http://localhost:8080";
       KagiConfig.timeout := Some (num 5) |}
  = Throw (Error "API key is required")
  /\ exists api,
       @new_KagiAPI example_runtime
         {| KagiConfig.apiKey := Some "secret";
            KagiConfig.baseURL := Some "http://localhost:8080";
            KagiConfig.timeout := Some (num 5) |} = Return api
       /\ headers (instance_defaults (client api))
          = [("Authorization", "Bot secret"); ("Content-Type", "application/json")]
       /\ baseURL (instance_defaults (client api)) = "http://localhost:8080"
       /\ timeout (instance_defaults (client api)) = num 5.
Proof.
  split.
  - apply (proj1 (@new_KagiAPI_contract example_runtime _)). left. reflexivity.
  - destruct (proj2 (@new_KagiAPI_contract example_runtime
                       {| KagiConfig.apiKey := Some "secret";
                          KagiConfig.baseURL := Some "http://localhost:8080";
                          KagiConfig.timeout := Some (num 5) |}) "secret" eq_refl)
      as (api & Hnew & Hheaders & _ & _ & Hbase & _ & Htimeout & _); [discriminate|].
    exists api. repeat split; [exact Hnew | exact Hheaders | |].
    + apply Hbase; [reflexivity | discriminate].
    + apply Htimeout; reflexivity.
Defined.

(** A supplied timeout of zero counts as not given: the instance carries
    the default. *)
Lemma new_KagiAPI_zero_timeout_replaced :
  exists api,
    @new_KagiAPI example_runtime
      {| KagiConfig.apiKey := Some "secret";
         KagiConfig.baseURL := None;
         KagiConfig.timeout := Some (num 0) |} = Return api
    /\ timeout (instance_defaults (client api)) = num 30000
    /\ timeout (instance_defaults (client api)) <> num 0.
Proof.
  eexists. split; [reflexivity|]. split; [reflexivity|]. discriminate.
Qed.

Lemma example_api_constructed :
  @new_KagiAPI example_runtime example_config = Return example_api.
Proof. reflexivity. Qed.

Lemma example_server_constructed :
  @new_KagiServer example_runtime (Some "secret") = Return example_server.
Proof. reflexivity. Qed.

(** Without the environment variable the server is not built. *)
Lemma new_KagiServer_requires_key `{Runtime} :
  new_KagiServer None = Throw (Error "KAGI_API_KEY environment variable is required").
Proof. reflexivity. Qed.

(* ================================================================== *)
(** * The client: operations *)
(* ================================================================== *)




(** C8. [testConnection] performs exactly the [search] for ["test"] with
    limit 1, and settles with [true] when that search resolves and with
    [false] when it rejects, whatever the error; it never rejects. *)
Theorem testConnection_collapses_errors `{Transport} (this : KagiAPI) (t : Trace) :
  let probe := {| SearchParams.q := "test"; SearchParams.limit := Some (num 1) |} in
  snd (testConnection this t) = snd (search this probe t)
  /\ (exists config,
        snd (testConnection this t) = (t ++ [config])%list
        /\ method config = GET
        /\ url config = "/search"
        /\ member (params config) "q" = String "test"
        /\ member (params config) "limit" = Number (num 1))
  /\ (forall results, fst (search this probe t) = Return results ->
      fst (testConnection this t) = Return true)
  /\ (forall error, fst (search this probe t) = Throw error ->
      fst (testConnection this t) = Return false)
  /\ (forall error, fst (testConnection this t) <> Throw error).
Proof.
  cbv zeta.
  assert (Hsame : snd (testConnection this t)
                  = snd (search this {| SearchParams.q := "test";
                                        SearchParams.limit := Some (num 1) |} t)).
  { unfold testConnection, try_catch, await, resolve.
    now destruct (search this _ t) as [[results|error] t']. }
  split; [exact Hsame|]. split.
  - rewrite Hsame, search_issues. eexists. repeat split.
  - unfold testConnection, try_catch, await, resolve.
    destruct (search this _ t) as [[results|error] t']; simpl;
      repeat split; intros; congruence.
Qed.

Lemma testConnection_collapses_errors_witness :
  fst (@testConnection (answering ok_response) example_api []) = Return true
  /\ fst (@testConnection (failing network_error) example_api []) = Return false.
Proof.
  split.
  - apply (proj1 (proj2 (proj2 (@testConnection_collapses_errors
                                  (answering ok_response) example_api [])))
             (response_data ok_response)).
    reflexivity.
  - apply (proj1 (proj2 (proj2 (proj2 (@testConnection_collapses_errors
                                         (failing network_error) example_api []))))
             (KagiError "Network Error" Undefined Undefined)).
    reflexivity.
Defined.

Section CacheFlag.
Context `{Transport}.
Variable this : KagiAPI.

(** The [cache] member written last into a request object, as read back
    and as transmitted. *)
Lemma cache_member_written entries (flag : option bool) :
  let written := match flag with
                 | Some b => String (String_of_boolean b)
                 | None => Undefined
                 end in
  let object := literal (entries ++ [("cache", written)]) in
  member object "cache" = written
  /\ lookup "cache" (transmitted object)
     = match flag with
       | Some b => Some (String (if b then "true" else "false"))
       | None => None
       end.
Proof.
  cbv zeta. unfold literal. rewrite fold_left_app. cbn [fold_left fst snd].
  split.
  - unfold member. now rewrite lookup_assign_same.
  - unfold transmitted. rewrite lookup_filter_assign.
    + now destruct flag as [[|]|].
    + apply literal_keys_NoDup. constructor.
Qed.

Lemma summarize_issues (params : SummarizeParams.t) t :
  xorb (truthy (optional String (SummarizeParams.url params)))
       (truthy (optional String (SummarizeParams.text params))) = true ->
  snd (summarize this params t)
  = (t ++ [{| defaults := instance_defaults (client this);
              method := GET;
              url := "/summarize";
              Axios.params :=
                literal (SummarizeParams.entries params
                         ++ [("cache", match SummarizeParams.cache params with
                                       | Some flag => String (String_of_boolean flag)
                                       | None => Undefined
                                       end)]);
              data := Undefined |}])%list.
Proof.
  intros Hone. unfold summarize.
  destruct (truthy (optional String (SummarizeParams.url params)));
    destruct (truthy (optional String (SummarizeParams.text params)));
    try discriminate; cbn [negb andb];
    unfold get; rewrite await_request; cbv zeta;
    now destruct (fst (request _ _ _ _ _ t)).
Qed.

Lemma fastgpt_issues (params : FastGPTParams.t) t :
  snd (fastgpt this params t)
  = (t ++ [{| defaults := instance_defaults (client this);
              method := POST;
              url := "/fastgpt";
              Axios.params := Undefined;
              data :=
                literal ([("query", String (FastGPTParams.query params))]
                         ++ [("cache", match FastGPTParams.cache params with
                                       | Some flag => String (String_of_boolean flag)
                                       | None => Undefined
                                       end)]) |}])%list.
Proof.
  unfold fastgpt, post. rewrite await_request. cbv zeta.
  now destruct (fst (request _ _ _ _ _ t)).
Qed.

End CacheFlag.

(** C9. A [summarize] call that passes its input check (exactly one of [url]
    and [text] non-empty) issues one GET of [/summarize], and every [fastgpt]
    call issues one POST of [/fastgpt].  In both, a [cache] flag that is
    present is carried as the string ["true"] or ["false"], and is
    transmitted as such; when the flag is absent the [cache] member is
    [undefined] and nothing is transmitted for it. *)
Theorem cache_flag_serialized `{Transport} (this : KagiAPI) (t : Trace) :
  (forall params : SummarizeParams.t,
     xorb (truthy (optional String (SummarizeParams.url params)))
          (truthy (optional String (SummarizeParams.text params))) = true ->
     exists config,
       snd (summarize this params t) = (t ++ [config])%list
       /\ method config = GET
       /\ url config = "/summarize"
       /\ member (Axios.params config) "cache"
          = match SummarizeParams.cache params with
            | Some flag => String (if flag then "true" else "false")
            | None => Undefined
            end
       /\ lookup "cache" (transmitted (Axios.params config))
          = match SummarizeParams.cache params with
            | Some flag => Some (String (if flag then "true" else "false"))
            | None => None
            end)
  /\
  (forall params : FastGPTParams.t,
     exists config,
       snd (fastgpt this params t) = (t ++ [config])%list
       /\ method config = POST
       /\ url config = "/fastgpt"
       /\ member (Axios.data config) "cache"
          = match FastGPTParams.cache params with
            | Some flag => String (if flag then "true" else "false")
            | None => Undefined
            end
       /\ lookup "cache" (transmitted (Axios.data config))
          = match FastGPTParams.cache params with
            | Some flag => Some (String (if flag then "true" else "false"))
            | None => None
            end).
Proof.
  split.
  - intros params Hone. eexists. split; [now apply summarize_issues|].
    cbn [method url Axios.params].
    destruct (cache_member_written (SummarizeParams.entries params)
                (SummarizeParams.cache params)) as [Hread Hsent].
    split; [reflexivity|]. split; [reflexivity|]. split; [|exact Hsent].
    rewrite Hread. now destruct (SummarizeParams.cache params) as [[|]|].
  - intros params. eexists. split; [apply fastgpt_issues|].
    cbn [method url Axios.data].
    destruct (cache_member_written [("query", String (FastGPTParams.query params))]
                (FastGPTParams.cache params)) as [Hread Hsent].
    split; [reflexivity|]. split; [reflexivity|]. split; [|exact Hsent].
    rewrite Hread. now destruct (FastGPTParams.cache params) as [[|]|].
Qed.

Lemma cache_flag_serialized_witness :
  exists config,
    snd (@summarize (answering ok_response) example_api
           {| SummarizeParams.url := Some "https://example.com";
              SummarizeParams.text := None;
              SummarizeParams.engine := Some cecil;
              SummarizeParams.summary_type := None;
              SummarizeParams.target_language := None;
              SummarizeParams.cache := Some false |} []) = [config]
    /\ method config = GET
    /\ url config = "/summarize"
    /\ member (params config) "cache" = String "false"
    /\ lookup "cache" (transmitted (params config)) = Some (String "false").
Proof.
  apply (proj1 (@cache_flag_serialized (answering ok_response) example_api [])
           {| SummarizeParams.url := Some "https://example.com";
              SummarizeParams.text := None;
              SummarizeParams.engine := Some cecil;
              SummarizeParams.summary_type := None;
              SummarizeParams.target_language := None;
              SummarizeParams.cache := Some false |}).
  reflexivity.
Defined.

(* ================================================================== *)
(** * The client: error normalisation *)
(* ================================================================== *)

Section Normalisation.
Context `{Runtime} `{Transport}.

(** The constructor registers [normalize] as the rejection handler. *)
Lemma new_KagiAPI_interceptor config api :
  new_KagiAPI config = Return api ->
  interceptor (client api)
  = Some {| onFulfilled := fun response => Return response; onRejected := normalize |}.
Proof.
  unfold new_KagiAPI. destruct (KagiConfig.apiKey config) as [key|]; [|discriminate].
  destruct (negb (truthy (String key))); [discriminate|].
  intros Hnew. injection Hnew as <-. reflexivity.
Qed.

(** A failed request settles as the rejection handler says. *)
Lemma request_failed i h m u p d t error :
  interceptor i = Some h ->
  (forall config, adapter t config = Failed error) ->
  fst (request i m u p d t) = onRejected h error.
Proof.
  intros Hi Hfail. unfold request. cbn [fst]. now rewrite Hfail, Hi.
Qed.

Lemma truthy_is_defined v : truthy v = true -> is_undefined v = false.
Proof. now destruct v. Qed.

(** What [normalize] throws for an error object. *)
Lemma normalize_throws error :
  nullish error = false ->
  let response := member error "response" in
  let reported := response ?. "data" ?. "message" in
  let code := response ?. "status" in
  let details := response ?. "data" in
  (forall text, reported = String text -> text <> "" ->
   normalize error = Throw (KagiError text code details))
  /\ (forall text, truthy reported = true -> ToString reported = Some text ->
      normalize error = Throw (KagiError text code details))
  /\ (forall text, truthy reported = false -> member error "message" = String text ->
      normalize error = Throw (KagiError text code details))
  /\ (exists e, normalize error = Throw e
                /\ (e = TypeError \/ exists text, e = KagiError text code details)).
Proof.
  intros Hobj. cbv zeta. unfold normalize. rewrite Hobj. repeat split.
  - intros text Hreported Htext. rewrite Hreported. unfold or.
    cbn [truthy]. apply String.eqb_neq in Htext. rewrite Htext. reflexivity.
  - intros text Htruthy Hstring. unfold or. rewrite Htruthy. unfold new_KagiError.
    rewrite (truthy_is_defined _ Htruthy), Hstring. reflexivity.
  - intros text Hfalsy Hmessage. unfold or. rewrite Hfalsy, Hmessage. reflexivity.
  - unfold new_KagiError.
    destruct (if is_undefined _ then Some "" else ToString _) as [text|].
    + eexists. split; [reflexivity|]. right. now exists text.
    + eexists. split; [reflexivity|]. now left.
Qed.

Variables (config : KagiConfig.t) (api : KagiAPI).
Hypothesis constructed : new_KagiAPI config = Return api.

(** Each operation that reaches the transport settles as its request
    does when the request fails. *)
Lemma failed_call_settles t error (call : Async JSValue) ps pz pf pe :
  (forall request, adapter t request = Failed error) ->
  In call [search api ps; summarize api pz; fastgpt api pf; enrich api pe] ->
  snd (call t) <> t ->
  forall e, normalize error = Throw e -> fst (call t) = Throw e.
Proof.
  intros Hfail Hin Hissued e He.
  pose proof constructed as Hi. apply new_KagiAPI_interceptor in Hi.
  assert (Hreq : forall m u p d, fst (request (client api) m u p d t) = Throw e).
  { intros. erewrite request_failed by eassumption. exact He. }
  destruct Hin as [<-|[<-|[<-|[<-|[]]]]].
  - unfold search, get. rewrite await_request. cbv zeta. now rewrite Hreq.
  - revert Hissued. unfold summarize.
    destruct (negb _ && negb _); [intros Hissued; now contradiction Hissued|].
    destruct (truthy _ && truthy _); [intros Hissued; now contradiction Hissued|].
    intros _. unfold get. rewrite await_request. cbv zeta. now rewrite Hreq.
  - unfold fastgpt, post. rewrite await_request. cbv zeta. now rewrite Hreq.
  - unfold enrich, get. rewrite await_request. cbv zeta. now rewrite Hreq.
Qed.

End Normalisation.




(* ================================================================== *)
(** * The tool adapter: validation and error translation *)
(* ================================================================== *)

Section AdapterFacts.
Context `{Runtime} `{Transport}.
Variable this : KagiServer.

Lemma parse_object members :
  exists properties, parse (JObject members) = Object properties.
Proof. eexists. reflexivity. Qed.

(** The guard on [limit], on a number. *)
Lemma limit_guard_in_range (q : Q) :
  number_lt (Finite q) (num 1) || number_gt (Finite q) (num 100) = false
  <-> (1 <= q <= 100)%Q.
Proof.
  unfold number_gt, number_lt, num.
  rewrite orb_false_iff, !negb_false_iff, !Qle_bool_iff.
  reflexivity.
Qed.

(** What the handler does once the name and the argument object are
    accepted, in terms of the two fields it reads. *)
Lemma CallTool_on_object properties t :
  CallTool this {| name := "kagi_search"; arguments := Object properties |} t
  = match member (Object properties) "query" with
    | String query =>
        match member (Object properties) "limit" with
        | Undefined => try_search this {| SearchParams.q := query; SearchParams.limit := None |} t
        | Number n =>
            if number_lt n (num 1) || number_gt n (num 100)
            then (Throw (McpError InvalidParams "Limit must be a number between 1 and 100"), t)
            else try_search this {| SearchParams.q := query; SearchParams.limit := Some n |} t
        | _ => (Throw (McpError InvalidParams "Limit must be a number between 1 and 100"), t)
        end
    | _ => (Throw (McpError InvalidParams "Query must be a string"), t)
    end.
Proof.
  unfold CallTool. cbn [name arguments truthy typeof negb orb String.eqb].
  change ("kagi_search" =? "kagi_search") with true.
  change ("object" =? "object") with true.
  cbn [negb orb].
  destruct (member (Object properties) "query"); try reflexivity.
  destruct (member (Object properties) "limit"); try reflexivity.
  cbn [is_undefined negb].
  now destruct (number_lt n (num 1) || number_gt n (num 100)).
Qed.

End AdapterFacts.

(** C5. A call to a tool other than [kagi_search] fails with the
    method-not-found fault whatever its arguments.  A call to [kagi_search]
    fails with the invalid-params fault when no arguments are supplied, when
    the arguments are not an object (a primitive, [null] or an array), and
    when the [query] field is not a string.  No request is issued in any of
    these cases. *)
Theorem CallTool_rejects_malformed_calls
  `{Transport} (this : KagiServer) (request : CallToolRequest) (t : Trace) :
  (name request <> "kagi_search" ->
   CallTool this request t = (Throw (McpError MethodNotFound "Unknown tool"), t))
  /\
  (name request = "kagi_search" ->
   arguments request = Undefined
   \/ (forall properties, arguments request <> Object properties)
   \/ (forall query, member (arguments request) "query" <> String query) ->
   exists message,
     CallTool this request t = (Throw (McpError InvalidParams message), t)).
Proof.
  split.
  - intros Hname. unfold CallTool.
    destruct (name request =? "kagi_search") eqn:E; [|reflexivity].
    apply String.eqb_eq in E. contradiction.
  - intros Hname Hbad. destruct request as [tool args]. simpl in *. subst tool.
    destruct args as [| |b|n|s|items|properties];
      try (eexists; unfold CallTool; cbn; rewrite ?orb_true_r; reflexivity).
    (* an array passes the object test and has no [query]; an object is
       judged on its [query] *)
    rewrite CallTool_on_object.
    destruct Hbad as [Hundef|[Hobj|Hquery]];
      [discriminate | exfalso; now apply (Hobj properties) |].
    destruct (member (Object properties) "query") eqn:Eq;
      try (eexists; reflexivity).
    exfalso. now apply (Hquery s).
Qed.

(** A call without arguments and a call to an unregistered tool, on a
    transport that would answer. *)
Lemma CallTool_rejects_malformed_calls_witness :
  @CallTool (answering ok_response) example_server (received "kagi_search" None) []
  = (Throw (McpError InvalidParams "Invalid arguments for kagi_search"), [])
  /\ @CallTool (answering ok_response) example_server
       (received "kagi_summarize" (Some (JObject [("query", JString "x")]))) []
     = (Throw (McpError MethodNotFound "Unknown tool"), []).
Proof.
  split.
  - destruct (proj2 (@CallTool_rejects_malformed_calls (answering ok_response)
                       example_server (received "kagi_search" None) []))
      as [message Hm]; [reflexivity | left; reflexivity |].
    rewrite Hm. vm_compute in Hm. injection Hm as Hm. now rewrite Hm.
  - apply (proj1 (@CallTool_rejects_malformed_calls (answering ok_response)
                    example_server
                    (received "kagi_summarize" (Some (JObject [("query", JString "x")]))) [])).
    vm_compute. discriminate.
Defined.

Section ToolCalls.
Context `{Transport}.
Variable this : KagiServer.

(** The handlers around the client call issue no request of their own. *)
Lemma try_search_trace searchParams t :
  snd (try_search this searchParams t) = snd (search (kagiApi this) searchParams t).
Proof.
  unfold try_search, try_catch, await, resolve, reject.
  destruct (search (kagiApi this) searchParams t) as [[results|error] t'];
    [reflexivity|].
  now destruct error.
Qed.

(** A limit inside the range is truthy, so the client keeps it. *)
Lemma in_range_truthy (q : Q) : (1 <= q <= 100)%Q -> truthy (Number (Finite q)) = true.
Proof.
  intros [Hlow _]. cbn [truthy]. apply negb_true_iff.
  destruct (Qeq_bool q 0) eqn:E; [|reflexivity].
  apply Qeq_bool_iff in E. rewrite E in Hlow.
  exfalso. revert Hlow. unfold Qle. simpl. lia.
Qed.

(** Every parsed limit that is not a number in the range is refused. *)
Lemma limit_refused (limit : Json) query t :
  (forall q, limit = JNumber q -> ~ (1 <= q <= 100)%Q) ->
  match parse limit with
  | Undefined => try_search this {| SearchParams.q := query; SearchParams.limit := None |} t
  | Number n =>
      if number_lt n (num 1) || number_gt n (num 100)
      then (Throw (McpError InvalidParams "Limit must be a number between 1 and 100"), t)
      else try_search this {| SearchParams.q := query; SearchParams.limit := Some n |} t
  | _ => (Throw (McpError InvalidParams "Limit must be a number between 1 and 100"), t)
  end
  = (Throw (McpError InvalidParams "Limit must be a number between 1 and 100"), t).
Proof.
  intros Hout.
  destruct limit as [|b|q|negative|s|items|members]; try reflexivity.
  - cbn [parse].
    destruct (number_lt (Finite q) (num 1) || number_gt (Finite q) (num 100)) eqn:E;
      [reflexivity|].
    apply limit_guard_in_range in E. now destruct (Hout q eq_refl).
  - now destruct negative.
Qed.

End ToolCalls.

(** C3. Take a call to [kagi_search] whose argument object has a [limit]
    member.  Unless that member is a number within [1, 100], the handler
    rejects with the invalid-params fault and issues no request.  When it is
    within the range and the query is a string, the handler calls the
    client's [search] with that very limit, and the one request issued
    carries it. *)
Theorem CallTool_limit_validation
  `{Transport} (this : KagiServer) (members : list (string * Json)) (limit : Json) (t : Trace) :
  field "limit" members = Some limit ->
  let request := received "kagi_search" (Some (JObject members)) in
  ((forall q, limit = JNumber q -> ~ (1 <= q <= 100)%Q) ->
   exists message,
     CallTool this request t = (Throw (McpError InvalidParams message), t))
  /\
  (forall q query,
     limit = JNumber q -> (1 <= q <= 100)%Q ->
     field "query" members = Some (JString query) ->
     CallTool this request t
     = try_search this {| SearchParams.q := query; SearchParams.limit := Some (Finite q) |} t
     /\ exists config,
          snd (CallTool this request t) = (t ++ [config])%list
          /\ method config = GET
          /\ url config = "/search"
          /\ member (params config) "limit" = Number (Finite q)).
Proof.
  intros Hlimit. cbv zeta. unfold received. cbn [optional].
  destruct (parse_object members) as [properties Hparse].
  pose proof (member_parse "limit" members) as Hl.
  pose proof (member_parse "query" members) as Hq.
  rewrite Hlimit in Hl. cbn [optional] in Hl.
  rewrite Hparse in *. rewrite CallTool_on_object, Hl.
  split.
  - intros Hout.
    destruct (member (Object properties) "query"); try (eexists; reflexivity).
    eexists. now apply limit_refused.
  - intros q query -> Hin Hquery.
    rewrite Hquery in Hq. cbn [optional parse] in Hq. rewrite Hq. cbn [parse].
    apply limit_guard_in_range in Hin as Hguard. rewrite Hguard.
    split; [reflexivity|].
    rewrite try_search_trace, search_issues. eexists. split; [reflexivity|].
    cbn [method url params SearchParams.q SearchParams.limit optional].
    repeat split. unfold or. now rewrite (in_range_truthy Hin).
Qed.

Lemma CallTool_limit_validation_witness :
  (exists message,
     @CallTool (answering ok_response) example_server
       (received "kagi_search"
          (Some (JObject [("query", JString "x"); ("limit", JNumber 101)]))) []
     = (Throw (McpError InvalidParams message), []))
  /\
  (exists config,
     snd (@CallTool (answering ok_response) example_server
            (received "kagi_search"
               (Some (JObject [("query", JString "x"); ("limit", JNumber 100)]))) [])
     = [config]
     /\ method config = GET
     /\ url config = "/search"
     /\ member (params config) "limit" = Number (Finite 100)).
Proof.
  split.
  - apply (proj1 (@CallTool_limit_validation (answering ok_response) example_server
                    [("query", JString "x"); ("limit", JNumber 101)] (JNumber 101) []
                    eq_refl)).
    intros q Hq [_ Hhigh]. injection Hq as <-. revert Hhigh. unfold Qle. simpl. lia.
  - apply (proj2 (@CallTool_limit_validation (answering ok_response) example_server
                    [("query", JString "x"); ("limit", JNumber 100)] (JNumber 100) []
                    eq_refl) 100%Q "x" eq_refl).
    + split; unfold Qle; simpl; lia.
    + reflexivity.
Defined.

(** C2. Take a call to [kagi_search] that passes validation, and let
    [searchParams] be the parameters it hands to the client.  If the client's
    [search] rejects with a [KagiError], the handler returns a result whose
    content is the single text block ["Kagi API error: <message>"] and whose
    [isError] flag is [true].  If it rejects with anything else, the handler
    rejects with that same exception.  If it resolves, the payload is
    returned as [toolResult]. *)
Theorem CallTool_error_translation
  `{Transport} (this : KagiServer) (properties : list (string * JSValue))
  (query : string) (limit : option number) (t : Trace) :
  member (Object properties) "query" = String query ->
  match member (Object properties) "limit" with
  | Undefined => limit = None
  | Number n => limit = Some n /\ number_lt n (num 1) || number_gt n (num 100) = false
  | _ => False
  end ->
  let request := {| name := "kagi_search"; arguments := Object properties |} in
  let searchParams := {| SearchParams.q := query; SearchParams.limit := limit |} in
  (forall message code details t',
     search (kagiApi this) searchParams t = (Throw (KagiError message code details), t') ->
     CallTool this request t
     = (Return (literal [("content",
                          Array [literal [("type", String "text");
                                          ("text", String ("Kagi API error: " ++ message))]]);
                         ("isError", Boolean true)]), t'))
  /\ (forall error t',
        search (kagiApi this) searchParams t = (Throw error, t') ->
        instanceof_KagiError error = false ->
        CallTool this request t = (Throw error, t'))
  /\ (forall results t',
        search (kagiApi this) searchParams t = (Return results, t') ->
        CallTool this request t = (Return (literal [("toolResult", results)]), t')).
Proof.
  intros Hquery Hlimit. cbv zeta.
  assert (Hcall : CallTool this {| name := "kagi_search"; arguments := Object properties |} t
                  = try_search this {| SearchParams.q := query; SearchParams.limit := limit |} t).
  { rewrite CallTool_on_object, Hquery.
    destruct (member (Object properties) "limit"); try contradiction.
    - now subst limit.
    - destruct Hlimit as [-> Hguard]. now rewrite Hguard. }
  rewrite Hcall. unfold try_search, try_catch, await, resolve, reject.
  repeat split.
  - intros message code details t' Hsearch. now rewrite Hsearch.
  - intros error t' Hsearch Hother. rewrite Hsearch.
    destruct error; try reflexivity. discriminate.
  - intros results t' Hsearch. now rewrite Hsearch.
Qed.

(** A search that fails at the backend, and one that fails on a transport
    error which is not an object. *)
Lemma CallTool_error_translation_witness :
  fst (@CallTool (failing (bad_request (String "Invalid request"))) example_server
         {| name := "kagi_search"; arguments := Object [("query", String "x")] |} [])
  = Return (literal [("content",
                      Array [literal [("type", String "text");
                                      ("text", String "Kagi API error: Invalid request")]]);
                     ("isError", Boolean true)])
  /\
  fst (@CallTool (failing Undefined) example_server
         {| name := "kagi_search"; arguments := Object [("query", String "x")] |} [])
  = Throw TypeError.
Proof.
  split.
  - erewrite (proj1 (@CallTool_error_translation
                       (failing (bad_request (String "Invalid request"))) example_server
                       [("query", String "x")] "x" None [] eq_refl eq_refl));
      reflexivity.
  - erewrite (proj1 (proj2 (@CallTool_error_translation
                              (failing Undefined) example_server
                              [("query", String "x")] "x" None [] eq_refl eq_refl)));
      reflexivity.
Defined.

(* ================================================================== *)
(** * Remarks on the edges of the guards *)
(* ================================================================== *)

(** A reported message that is a number is surfaced in its string form. *)
Lemma numeric_reported_message_is_rendered :
  fst (@search (failing (bad_request (Number (num 42)))) example_api
         {| SearchParams.q := "test"; SearchParams.limit := None |} [])
  = Throw (KagiError "42" (Number (num 400)) (literal [("message", Number (num 42))])).
Proof. reflexivity. Qed.

(** A reported message that is an object shadowing [toString] has no string
    form: building the [KagiError] raises a [TypeError]. *)
Lemma unprintable_reported_message_raises :
  fst (@search (failing (bad_request (literal [("toString", Null)]))) example_api
         {| SearchParams.q := "test"; SearchParams.limit := None |} [])
  = Throw TypeError.
Proof. reflexivity. Qed.

(** The members of parsed arguments are never [NaN]. *)
Lemma parsed_member_not_NaN key members :
  member (parse (JObject members)) key <> Number NaN.
Proof.
  rewrite member_parse.
  destruct (field key members) as [[|b|q|negative|s|items|fields]|]; discriminate.
Qed.

(** The guard on [limit] compares with [<] and [>], both false on [NaN]: a
    [NaN] limit, which no JSON text denotes, would pass the guard, and the
    client would then issue its default. *)
Lemma limit_guard_admits_NaN :
  exists config,
    snd (@CallTool (answering ok_response) example_server
           {| name := "kagi_search";
              arguments := Object [("query", String "x"); ("limit", Number NaN)] |} [])
    = [config]
    /\ member (params config) "limit" = Number (num 10).
Proof. eexists. split; reflexivity. Qed.


(* ================================================================== *)
(** * Further properties of the client *)
(* ================================================================== *)

Section ClientCoverage.
Context `{Runtime} `{Transport}.

Lemma trace_grows (t : Trace) (c : RequestConfig) : (t ++ [c])%list <> t.
Proof.
  intros Heq. apply (f_equal (@length _)) in Heq.
  rewrite length_app in Heq. simpl in Heq. lia.
Qed.

Lemma enrich_issues (this : KagiAPI) (params : EnrichParams.t) t :
  snd (enrich this params t)
  = (t ++ [{| defaults := instance_defaults (client this);
              method := GET;
              url := "/enrich/news";
              Axios.params := literal [("q", String (EnrichParams.q params))];
              data := Undefined |}])%list.
Proof.
  unfold enrich, get. rewrite await_request. cbv zeta.
  now destruct (fst (request _ _ _ _ _ t)).
Qed.

(** [summarize] refuses every call in which it is not exactly one of [url]
    and [text] that is truthy. *)
Lemma summarize_refuses (this : KagiAPI) (params : SummarizeParams.t) t :
  xorb (truthy (optional String (SummarizeParams.url params)))
       (truthy (optional String (SummarizeParams.text params))) = false ->
  exists message, summarize this params t = (Throw (Error message), t).
Proof.
  intros Hnot. unfold summarize.
  destruct (truthy (optional String (SummarizeParams.url params)));
    destruct (truthy (optional String (SummarizeParams.text params)));
    try discriminate; eexists; reflexivity.
Qed.

Lemma await_request_data i m u p d t :
  await (request i m u p d) (fun response => resolve (response_data response)) t
  = (match fst (request i m u p d t) with
     | Return r => Return (response_data r)
     | Throw e => Throw e
     end,
     (t ++ [{| defaults := instance_defaults i;
               method := m; url := u; Axios.params := p; data := d |}])%list).
Proof.
  rewrite await_request. cbv zeta.
  now destruct (fst (request i m u p d t)).
Qed.

(** An operation either refuses its input without a request, or settles as
    the one request it issues does, handing back the data of the answer. *)
Lemma call_outcome (this : KagiAPI) (call : Async JSValue) ps pz pf pe t :
  In call [search this ps; summarize this pz; fastgpt this pf; enrich this pe] ->
  (exists message, call t = (Throw (Error message), t))
  \/ (exists m u p d,
        call t
        = (match fst (request (client this) m u p d t) with
           | Return r => Return (response_data r)
           | Throw e => Throw e
           end,
           (t ++ [{| defaults := instance_defaults (client this);
                     method := m; url := u; Axios.params := p; data := d |}])%list)).
Proof.
  intros [<-|[<-|[<-|[<-|[]]]]].
  - right. unfold search, get. eexists _, _, _, _. apply await_request_data.
  - destruct (xorb (truthy (optional String (SummarizeParams.url pz)))
                   (truthy (optional String (SummarizeParams.text pz)))) eqn:E.
    + right. unfold summarize.
      destruct (truthy (optional String (SummarizeParams.url pz)));
        destruct (truthy (optional String (SummarizeParams.text pz)));
        try discriminate; cbn [negb andb];
        unfold get; eexists _, _, _, _; apply await_request_data.
    + left. now apply summarize_refuses.
  - right. unfold fastgpt, post. eexists _, _, _, _. apply await_request_data.
  - right. unfold enrich, get. eexists _, _, _, _. apply await_request_data.
Qed.

(** [normalize] always throws, and only a [KagiError] or a [TypeError]. *)
Lemma normalize_classified (error : JSValue) :
  exists e,
    normalize error = Throw e
    /\ (e = TypeError \/ exists text code details, e = KagiError text code details).
Proof.
  unfold normalize. destruct (nullish error).
  - eexists. split; [reflexivity | now left].
  - unfold new_KagiError.
    destruct (if is_undefined _ then Some "" else ToString _) as [text|].
    + eexists. split; [reflexivity|]. right. now do 3 eexists.
    + eexists. split; [reflexivity | now left].
Qed.

(** On a constructed client a request settles with the answer itself, or
    with what [normalize] throws for the failure. *)
Lemma constructed_request_settles config api m u p d t :
  new_KagiAPI config = Return api ->
  fst (request (client api) m u p d t)
  = match adapter t {| defaults := instance_defaults (client api);
                       method := m; url := u; Axios.params := p; data := d |} with
    | Answered r => Return r
    | Failed error => normalize error
    end.
Proof.
  intros Hnew. apply new_KagiAPI_interceptor in Hnew.
  unfold request. cbn [fst]. rewrite Hnew.
  now destruct (adapter t _).
Qed.

Lemma constructed_headers config key api :
  KagiConfig.apiKey config = Some key ->
  new_KagiAPI config = Return api ->
  key <> ""
  /\ headers (instance_defaults (client api))
     = [("Authorization", "Bot " ++ key); ("Content-Type", "application/json")].
Proof.
  unfold new_KagiAPI. intros ->. cbn [truthy].
  destruct (key =? "") eqn:E; cbn [negb]; [discriminate|].
  intros Hnew. injection Hnew as <-. split; [|reflexivity].
  now apply String.eqb_neq.
Qed.

End ClientCoverage.

(** X1. On a client built by the constructor, an answer of the backend
    passes through untouched: whichever operation issued the request
    resolves with exactly the data of the answer, whatever that data holds
    (an [error] list included). *)
Theorem answers_pass_through
  `{Runtime} `{Transport} (config : KagiConfig.t) (api : KagiAPI) (t : Trace)
  (r : Response) (call : Async JSValue)
  (ps : SearchParams.t) (pz : SummarizeParams.t) (pf : FastGPTParams.t) (pe : EnrichParams.t) :
  new_KagiAPI config = Return api ->
  (forall request, adapter t request = Answered r) ->
  In call [search api ps; summarize api pz; fastgpt api pf; enrich api pe] ->
  snd (call t) <> t ->
  fst (call t) = Return (response_data r).
Proof.
  intros Hnew Hanswer Hin Hissued.
  pose proof Hin as Hout. apply call_outcome with (t := t) in Hout.
  destruct Hout as [[message Hm]|(m & u & p & d & Hcall)].
  - rewrite Hm in Hissued. now contradiction Hissued.
  - rewrite Hcall. cbn [fst].
    erewrite constructed_request_settles by eassumption. now rewrite Hanswer.
Qed.

Lemma answers_pass_through_witness :
  fst (@enrich (answering ok_response) example_api {| EnrichParams.q := "rust" |} [])
  = Return (response_data ok_response).
Proof.
  apply (@answers_pass_through example_runtime (answering ok_response)
           example_config example_api [] ok_response _
           {| SearchParams.q := "rust"; SearchParams.limit := None |}
           {| SummarizeParams.url := None; SummarizeParams.text := None;
              SummarizeParams.engine := None; SummarizeParams.summary_type := None;
              SummarizeParams.target_language := None; SummarizeParams.cache := None |}
           {| FastGPTParams.query := "rust"; FastGPTParams.cache := None |}
           {| EnrichParams.q := "rust" |}).
  - reflexivity.
  - intros request. reflexivity.
  - right. right. right. left. reflexivity.
  - vm_compute. discriminate.
Defined.

(** X2. Whatever the transport does, an operation of a constructed client
    rejects only with a [KagiError], with a [TypeError], or (when no request
    was issued) with the plain [Error] of [summarize]'s input check: never
    with the transport's own error object and never with a protocol fault. *)
Theorem rejections_are_classified
  `{Runtime} `{Transport} (config : KagiConfig.t) (api : KagiAPI) (t : Trace)
  (call : Async JSValue) (e : Thrown)
  (ps : SearchParams.t) (pz : SummarizeParams.t) (pf : FastGPTParams.t) (pe : EnrichParams.t) :
  new_KagiAPI config = Return api ->
  In call [search api ps; summarize api pz; fastgpt api pf; enrich api pe] ->
  fst (call t) = Throw e ->
  (exists text code details, e = KagiError text code details)
  \/ e = TypeError
  \/ (snd (call t) = t /\ call = summarize api pz /\ exists message, e = Error message).
Proof.
  intros Hnew Hin Hthrow.
  pose proof Hin as Hout. apply call_outcome with (t := t) in Hout.
  destruct Hout as [[message Hm]|(m & u & p & d & Hcall)].
  - right. right. rewrite Hm in *. cbn [fst snd] in *. injection Hthrow as <-.
    split; [reflexivity|]. split; [|now exists message].
    destruct Hin as [<-|[<-|[<-|[<-|[]]]]]; try reflexivity; exfalso.
    + apply (f_equal snd) in Hm. rewrite search_issues in Hm. now apply trace_grows in Hm.
    + apply (f_equal snd) in Hm. rewrite fastgpt_issues in Hm. now apply trace_grows in Hm.
    + apply (f_equal snd) in Hm. rewrite enrich_issues in Hm. now apply trace_grows in Hm.
  - rewrite Hcall in Hthrow. cbn [fst] in Hthrow.
    erewrite constructed_request_settles in Hthrow by eassumption.
    destruct (adapter t _) as [r|error]; [discriminate|].
    destruct (normalize_classified error) as (e' & He' & Hshape).
    rewrite He' in Hthrow. injection Hthrow as <-.
    destruct Hshape as [->|Hk]; [now right; left | now left].
Qed.

Lemma rejections_are_classified_witness :
  (exists text code details,
     KagiError "Network Error" Undefined Undefined = KagiError text code details)
  \/ KagiError "Network Error" Undefined Undefined = TypeError
  \/ (snd (@fastgpt (failing network_error) example_api
             {| FastGPTParams.query := "rust"; FastGPTParams.cache := None |} []) = []
      /\ @fastgpt (failing network_error) example_api
           {| FastGPTParams.query := "rust"; FastGPTParams.cache := None |}
         = @summarize (failing network_error) example_api
             {| SummarizeParams.url := None; SummarizeParams.text := None;
                SummarizeParams.engine := None; SummarizeParams.summary_type := None;
                SummarizeParams.target_language := None; SummarizeParams.cache := None |}
      /\ exists message, KagiError "Network Error" Undefined Undefined = Error message).
Proof.
  apply (@rejections_are_classified example_runtime (failing network_error)
           example_config example_api []
           (@fastgpt (failing network_error) example_api
              {| FastGPTParams.query := "rust"; FastGPTParams.cache := None |})
           (KagiError "Network Error" Undefined Undefined)
           {| SearchParams.q := "rust"; SearchParams.limit := None |}
           {| SummarizeParams.url := None; SummarizeParams.text := None;
              SummarizeParams.engine := None; SummarizeParams.summary_type := None;
              SummarizeParams.target_language := None; SummarizeParams.cache := None |}
           {| FastGPTParams.query := "rust"; FastGPTParams.cache := None |}
           {| EnrichParams.q := "rust" |}).
  - reflexivity.
  - right. right. left. reflexivity.
  - reflexivity.
Defined.

(** X3. A failure that carries no response (the backend never answered)
    surfaces as a [KagiError] with the transport's message and with neither
    code nor details. *)
Theorem failure_without_response
  `{Runtime} `{Transport} (config : KagiConfig.t) (api : KagiAPI) (t : Trace)
  (error : JSValue) (text : string) (call : Async JSValue)
  (ps : SearchParams.t) (pz : SummarizeParams.t) (pf : FastGPTParams.t) (pe : EnrichParams.t) :
  new_KagiAPI config = Return api ->
  (forall request, adapter t request = Failed error) ->
  nullish error = false ->
  nullish (member error "response") = true ->
  member error "message" = String text ->
  In call [search api ps; summarize api pz; fastgpt api pf; enrich api pe] ->
  snd (call t) <> t ->
  fst (call t) = Throw (KagiError text Undefined Undefined).
Proof.
  intros Hnew Hfail Hobj Hnone Hmessage Hin Hissued.
  eapply failed_call_settles; try eassumption.
  unfold normalize, optional_member. rewrite Hobj, Hnone. cbn [nullish].
  unfold or. cbn [truthy]. rewrite Hmessage. reflexivity.
Qed.

Lemma failure_without_response_witness :
  fst (@search (failing network_error) example_api
         {| SearchParams.q := "rust"; SearchParams.limit := None |} [])
  = Throw (KagiError "Network Error" Undefined Undefined).
Proof.
  apply (@failure_without_response example_runtime (failing network_error)
           example_config example_api [] network_error "Network Error" _
           {| SearchParams.q := "rust"; SearchParams.limit := None |}
           {| SummarizeParams.url := None; SummarizeParams.text := None;
              SummarizeParams.engine := None; SummarizeParams.summary_type := None;
              SummarizeParams.target_language := None; SummarizeParams.cache := None |}
           {| FastGPTParams.query := "rust"; FastGPTParams.cache := None |}
           {| EnrichParams.q := "rust" |}).
  - reflexivity.
  - intros request. reflexivity.
  - reflexivity.
  - reflexivity.
  - reflexivity.
  - left. reflexivity.
  - vm_compute. discriminate.
Defined.

(** X4. The rejection handler reads [error.response] before anything else:
    when the transport rejects with [undefined] or [null], the operation
    rejects with a [TypeError], not with a [KagiError]. *)
Theorem nullish_failure_raises_TypeError
  `{Runtime} `{Transport} (config : KagiConfig.t) (api : KagiAPI) (t : Trace)
  (error : JSValue) (call : Async JSValue)
  (ps : SearchParams.t) (pz : SummarizeParams.t) (pf : FastGPTParams.t) (pe : EnrichParams.t) :
  new_KagiAPI config = Return api ->
  (forall request, adapter t request = Failed error) ->
  error = Undefined \/ error = Null ->
  In call [search api ps; summarize api pz; fastgpt api pf; enrich api pe] ->
  snd (call t) <> t ->
  fst (call t) = Throw TypeError.
Proof.
  intros Hnew Hfail Hnull Hin Hissued.
  eapply failed_call_settles; try eassumption.
  now destruct Hnull as [-> | ->].
Qed.

Lemma nullish_failure_raises_TypeError_witness :
  fst (@search (failing Null) example_api
         {| SearchParams.q := "rust"; SearchParams.limit := None |} [])
  = Throw TypeError.
Proof.
  apply (@nullish_failure_raises_TypeError example_runtime (failing Null)
           example_config example_api [] Null _
           {| SearchParams.q := "rust"; SearchParams.limit := None |}
           {| SummarizeParams.url := None; SummarizeParams.text := None;
              SummarizeParams.engine := None; SummarizeParams.summary_type := None;
              SummarizeParams.target_language := None; SummarizeParams.cache := None |}
           {| FastGPTParams.query := "rust"; FastGPTParams.cache := None |}
           {| EnrichParams.q := "rust" |}).
  - reflexivity.
  - intros request. reflexivity.
  - right. reflexivity.
  - left. reflexivity.
  - vm_compute. discriminate.
Defined.

(** X5. Every request issued by an operation of a constructed client
    carries the instance defaults fixed at construction: the header
    [Authorization: Bot <credential>] with the credential the client was
    built with, the JSON content type, and the instance's base URL and
    timeout.  Nothing that was in the trace before is touched. *)
Theorem requests_carry_credentials
  `{Runtime} `{Transport} (config : KagiConfig.t) (key : string) (api : KagiAPI)
  (t : Trace) (call : Async JSValue)
  (ps : SearchParams.t) (pz : SummarizeParams.t) (pf : FastGPTParams.t) (pe : EnrichParams.t) :
  KagiConfig.apiKey config = Some key ->
  new_KagiAPI config = Return api ->
  In call [search api ps; summarize api pz; fastgpt api pf; enrich api pe] ->
  snd (call t) = t
  \/ exists c,
       snd (call t) = (t ++ [c])%list
       /\ headers (defaults c)
          = [("Authorization", "Bot " ++ key); ("Content-Type", "application/json")]
       /\ baseURL (defaults c) = baseURL (instance_defaults (client api))
       /\ timeout (defaults c) = timeout (instance_defaults (client api)).
Proof.
  intros Hkey Hnew Hin.
  pose proof Hin as Hout. apply call_outcome with (t := t) in Hout.
  destruct Hout as [[message Hm]|(m & u & p & d & Hcall)].
  - left. now rewrite Hm.
  - right. rewrite Hcall. cbn [snd]. eexists. split; [reflexivity|].
    cbn [defaults]. repeat split.
    now destruct (constructed_headers _ Hkey Hnew).
Qed.

Lemma requests_carry_credentials_witness :
  snd (@fastgpt (answering ok_response) example_api
         {| FastGPTParams.query := "rust"; FastGPTParams.cache := None |} []) = []
  \/ exists c,
       snd (@fastgpt (answering ok_response) example_api
              {| FastGPTParams.query := "rust"; FastGPTParams.cache := None |} []) = [c]
       /\ headers (defaults c)
          = [("Authorization", "Bot secret"); ("Content-Type", "application/json")]
       /\ baseURL (defaults c) = "https://kagi.com/api/v0"
       /\ timeout (defaults c) = num 30000.
Proof.
  apply (@requests_carry_credentials example_runtime (answering ok_response)
           example_config "secret" example_api [] _
           {| SearchParams.q := "rust"; SearchParams.limit := None |}
           {| SummarizeParams.url := None; SummarizeParams.text := None;
              SummarizeParams.engine := None; SummarizeParams.summary_type := None;
              SummarizeParams.target_language := None; SummarizeParams.cache := None |}
           {| FastGPTParams.query := "rust"; FastGPTParams.cache := None |}
           {| EnrichParams.q := "rust" |}).
  - reflexivity.
  - reflexivity.
  - right. right. left. reflexivity.
Defined.

(** X6. [search], [fastgpt] and [enrich] check nothing: for every input,
    an empty query included, each issues exactly one request.  [fastgpt]
    POSTs to [/fastgpt] with the query in the body and no query parameters;
    [enrich] GETs [/enrich/news] with [q] as its only parameter and no body;
    [search] GETs [/search] with no body. *)
Theorem operation_routing
  `{Transport} (this : KagiAPI)
  (ps : SearchParams.t) (pf : FastGPTParams.t) (pe : EnrichParams.t) (t : Trace) :
  (exists c,
     snd (search this ps t) = (t ++ [c])%list
     /\ method c = GET /\ url c = "/search"
     /\ member (params c) "q" = String (SearchParams.q ps)
     /\ data c = Undefined)
  /\ (exists c,
        snd (fastgpt this pf t) = (t ++ [c])%list
        /\ method c = POST /\ url c = "/fastgpt"
        /\ member (data c) "query" = String (FastGPTParams.query pf)
        /\ params c = Undefined)
  /\ (exists c,
        snd (enrich this pe t) = (t ++ [c])%list
        /\ method c = GET /\ url c = "/enrich/news"
        /\ params c = Object [("q", String (EnrichParams.q pe))]
        /\ data c = Undefined).
Proof.
  split; [|split].
  - eexists. split; [apply search_issues|]. repeat split.
  - eexists. split; [apply fastgpt_issues|]. repeat split.
  - eexists. split; [apply enrich_issues|]. repeat split.
Qed.

Section SummarizeCoverage.
Context `{Transport}.
Variable this : KagiAPI.

(** What [{...params, cache}] holds for the fields other than [cache]. *)
Lemma summarize_members (params : SummarizeParams.t) written :
  let object := literal (SummarizeParams.entries params ++ [("cache", written)]) in
  member object "url" = optional String (SummarizeParams.url params)
  /\ member object "text" = optional String (SummarizeParams.text params)
  /\ member object "engine"
     = optional (fun e => String (Engine_name e)) (SummarizeParams.engine params)
  /\ member object "summary_type"
     = optional (fun k => String (SummaryType_name k)) (SummarizeParams.summary_type params)
  /\ member object "target_language"
     = optional String (SummarizeParams.target_language params).
Proof.
  destruct params as [[u|] [x|] [e|] [k|] [l|] [c|]]; repeat split.
Qed.

End SummarizeCoverage.

(** X7. [summarize] issues a request exactly when one of [url] and [text]
    is truthy and the other is not; in every other case it rejects with a
    plain [Error] and issues nothing.  The request is one GET of
    [/summarize] whose [url] and [text] members are the ones given (so
    exactly one of them is truthy) and whose [engine], [summary_type] and
    [target_language] members are the given ones, [undefined] when absent. *)
Theorem summarize_request_shape
  `{Transport} (this : KagiAPI) (params : SummarizeParams.t) (t : Trace) :
  let one_source :=
    xorb (truthy (optional String (SummarizeParams.url params)))
         (truthy (optional String (SummarizeParams.text params))) in
  (one_source = false ->
   exists message, summarize this params t = (Throw (Error message), t))
  /\
  (one_source = true ->
   exists c,
     snd (summarize this params t) = (t ++ [c])%list
     /\ method c = GET /\ url c = "/summarize" /\ data c = Undefined
     /\ member (Axios.params c) "url" = optional String (SummarizeParams.url params)
     /\ member (Axios.params c) "text" = optional String (SummarizeParams.text params)
     /\ xorb (truthy (member (Axios.params c) "url"))
             (truthy (member (Axios.params c) "text")) = true
     /\ member (Axios.params c) "engine"
        = optional (fun e => String (Engine_name e)) (SummarizeParams.engine params)
     /\ member (Axios.params c) "summary_type"
        = optional (fun k => String (SummaryType_name k)) (SummarizeParams.summary_type params)
     /\ member (Axios.params c) "target_language"
        = optional String (SummarizeParams.target_language params)).
Proof.
  cbv zeta. split.
  - apply summarize_refuses.
  - intros Hone. eexists. split; [now apply summarize_issues|].
    cbn [method url data Axios.params].
    destruct (summarize_members params
                (match SummarizeParams.cache params with
                 | Some flag => String (String_of_boolean flag)
                 | None => Undefined
                 end)) as (Hu & Hx & He & Hk & Hl).
    rewrite Hu, Hx, He, Hk, Hl. repeat split. exact Hone.
Qed.

Lemma summarize_request_shape_witness :
  exists c,
    snd (@summarize (answering ok_response) example_api
           {| SummarizeParams.url := None;
              SummarizeParams.text := Some "a long text";
              SummarizeParams.engine := Some agnes;
              SummarizeParams.summary_type := Some takeaway;
              SummarizeParams.target_language := None;
              SummarizeParams.cache := None |} []) = [c]
    /\ member (params c) "url" = Undefined
    /\ member (params c) "text" = String "a long text"
    /\ member (params c) "engine" = String "agnes"
    /\ member (params c) "summary_type" = String "takeaway"
    /\ member (params c) "target_language" = Undefined.
Proof.
  destruct (proj2 (@summarize_request_shape (answering ok_response) example_api
                     {| SummarizeParams.url := None;
                        SummarizeParams.text := Some "a long text";
                        SummarizeParams.engine := Some agnes;
                        SummarizeParams.summary_type := Some takeaway;
                        SummarizeParams.target_language := None;
                        SummarizeParams.cache := None |} []) eq_refl)
    as (c & Htrace & _ & _ & _ & Hu & Hx & _ & He & Hk & Hl).
  exists c. repeat split; assumption.
Defined.

(** X8. An instance built by the constructor never carries an empty base
    URL, a zero timeout or a [NaN] timeout: a falsy setting is always
    replaced by the default, which is truthy. *)
Theorem constructed_defaults_are_truthy
  `{Runtime} (config : KagiConfig.t) (api : KagiAPI) :
  new_KagiAPI config = Return api ->
  baseURL (instance_defaults (client api)) <> ""
  /\ truthy (Number (timeout (instance_defaults (client api)))) = true
  /\ timeout (instance_defaults (client api)) <> NaN.
Proof.
  unfold new_KagiAPI. destruct (KagiConfig.apiKey config) as [key|]; [|discriminate].
  destruct (negb (truthy (String key))); [discriminate|].
  intros Hnew. injection Hnew as <-.
  cbn [client use create instance_defaults Axios.baseURL Axios.timeout].
  assert (Htimeout : truthy (Number (number_or (KagiConfig.timeout config) DEFAULT_TIMEOUT))
                     = true).
  { unfold number_or. destruct (KagiConfig.timeout config) as [n|]; [|reflexivity].
    destruct (truthy (Number n)) eqn:E; [exact E | reflexivity]. }
  repeat split.
  - unfold string_or. destruct (KagiConfig.baseURL config) as [u|]; [|discriminate].
    cbn [truthy]. destruct (u =? "") eqn:E; cbn [negb]; [discriminate|].
    now apply String.eqb_neq.
  - exact Htimeout.
  - intros Hnan. rewrite Hnan in Htimeout. discriminate.
Qed.

Lemma constructed_defaults_are_truthy_witness :
  exists api,
    @new_KagiAPI example_runtime
      {| KagiConfig.apiKey := Some "secret";
         KagiConfig.baseURL := Some "";
         KagiConfig.timeout := Some NaN |} = Return api
    /\ baseURL (instance_defaults (client api)) <> ""
    /\ truthy (Number (timeout (instance_defaults (client api)))) = true
    /\ timeout (instance_defaults (client api)) <> NaN.
Proof.
  eexists. split; [reflexivity|].
  apply (@constructed_defaults_are_truthy example_runtime
           {| KagiConfig.apiKey := Some "secret";
              KagiConfig.baseURL := Some "";
              KagiConfig.timeout := Some NaN |}).
  reflexivity.
Defined.

(* ================================================================== *)
(** * Further properties of the server *)
(* ================================================================== *)

(** X9. The server is built exactly when [KAGI_API_KEY] is set to a
    non-empty value.  Otherwise construction throws the error that names the
    environment variable; the client's own "API key is required" is never
    what comes out.  A server that is built talks to the default base URL
    with the default timeout and the credential from the environment. *)
Theorem new_KagiServer_contract `{Runtime} (KAGI_API_KEY : option string) :
  (KAGI_API_KEY = None \/ KAGI_API_KEY = Some "" ->
   new_KagiServer KAGI_API_KEY
   = Throw (Error "KAGI_API_KEY environment variable is required"))
  /\
  (forall key, KAGI_API_KEY = Some key -> key <> "" ->
   exists server,
     new_KagiServer KAGI_API_KEY = Return server
     /\ new_KagiAPI {| KagiConfig.apiKey := Some key;
                       KagiConfig.baseURL := None;
                       KagiConfig.timeout := None |} = Return (kagiApi server)
     /\ headers (instance_defaults (client (kagiApi server)))
        = [("Authorization", "Bot " ++ key); ("Content-Type", "application/json")]
     /\ baseURL (instance_defaults (client (kagiApi server))) = "https://kagi.com/api/v0"
     /\ timeout (instance_defaults (client (kagiApi server))) = num 30000)
  /\ new_KagiServer KAGI_API_KEY <> Throw (Error "API key is required").
Proof.
  split; [|split].
  - intros [-> | ->]; reflexivity.
  - intros key -> Hkey. unfold new_KagiServer, new_KagiAPI.
    cbn [optional truthy KagiConfig.apiKey KagiConfig.baseURL KagiConfig.timeout].
    apply String.eqb_neq in Hkey. rewrite Hkey. cbn [negb].
    eexists. repeat split.
  - unfold new_KagiServer, new_KagiAPI.
    destruct KAGI_API_KEY as [key|]; [|discriminate].
    cbn [optional truthy KagiConfig.apiKey].
    destruct (key =? ""); cbn [negb]; discriminate.
Qed.

Lemma new_KagiServer_contract_witness :
  @new_KagiServer example_runtime (Some "")
  = Throw (Error "KAGI_API_KEY environment variable is required")
  /\ exists server,
       @new_KagiServer example_runtime (Some "secret") = Return server
       /\ headers (instance_defaults (client (kagiApi server)))
          = [("Authorization", "Bot secret"); ("Content-Type", "application/json")].
Proof.
  split.
  - apply (proj1 (@new_KagiServer_contract example_runtime (Some ""))).
    right. reflexivity.
  - destruct (proj1 (proj2 (@new_KagiServer_contract example_runtime (Some "secret")))
                "secret" eq_refl) as (server & Hnew & _ & Hheaders & _);
      [discriminate|].
    exists server. split; assumption.
Defined.

Section ServerCoverage.
Context `{Transport}.
Variable this : KagiServer.

(** The three ways a tool call can go: an unknown name, refused arguments,
    or the guarded client call. *)
Lemma CallTool_cases (request : CallToolRequest) t :
  (name request <> "kagi_search"
   /\ CallTool this request t = (Throw (McpError MethodNotFound "Unknown tool"), t))
  \/ (name request = "kagi_search"
      /\ exists message,
           CallTool this request t = (Throw (McpError InvalidParams message), t))
  \/ (name request = "kagi_search"
      /\ exists searchParams,
           CallTool this request t = try_search this searchParams t).
Proof.
  destruct request as [tool args].
  destruct (tool =? "kagi_search") eqn:E.
  - apply String.eqb_eq in E. subst tool. right. cbn [name].
    destruct args as [| |b|n|s|items|properties];
      try (left; split; [reflexivity|]; eexists;
           unfold CallTool; cbn; rewrite ?orb_true_r; reflexivity).
    rewrite CallTool_on_object.
    destruct (member (Object properties) "query");
      try (left; split; [reflexivity|]; eexists; reflexivity).
    destruct (member (Object properties) "limit");
      try (left; split; [reflexivity|]; eexists; reflexivity).
    + right. split; [reflexivity|]. eexists. reflexivity.
    + destruct (number_lt n (num 1) || number_gt n (num 100)).
      * left. split; [reflexivity|]. eexists. reflexivity.
      * right. split; [reflexivity|]. eexists. reflexivity.
  - left. split.
    + cbn [name]. now apply String.eqb_neq.
    + unfold CallTool. cbn [name]. now rewrite E.
Qed.

(** A call that passes validation is the guarded client call. *)
Lemma CallTool_validated properties query limit t :
  member (Object properties) "query" = String query ->
  match member (Object properties) "limit" with
  | Undefined => limit = None
  | Number n => limit = Some n /\ number_lt n (num 1) || number_gt n (num 100) = false
  | _ => False
  end ->
  CallTool this {| name := "kagi_search"; arguments := Object properties |} t
  = try_search this {| SearchParams.q := query; SearchParams.limit := limit |} t.
Proof.
  intros Hquery Hlimit. rewrite CallTool_on_object, Hquery.
  destruct (member (Object properties) "limit"); try contradiction.
  - now subst limit.
  - destruct Hlimit as [-> Hguard]. now rewrite Hguard.
Qed.

(** The guarded client call issues the one request of [search]. *)
Lemma try_search_issues searchParams t :
  exists c,
    snd (try_search this searchParams t) = (t ++ [c])%list
    /\ method c = GET /\ url c = "/search"
    /\ member (params c) "q" = String (SearchParams.q searchParams)
    /\ member (params c) "limit"
       = or (optional Number (SearchParams.limit searchParams)) (Number (num 10)).
Proof.
  rewrite try_search_trace, search_issues. eexists. repeat split.
Qed.

End ServerCoverage.

(** X10. A call that passes validation, on a server whose client was built
    by the constructor and whose backend answers, returns the data of the
    answer as [toolResult], after one GET of [/search] carrying the query. *)
Theorem CallTool_success
  `{Runtime} `{Transport} (config : KagiConfig.t) (this : KagiServer)
  (properties : list (string * JSValue)) (query : string) (limit : option number)
  (t : Trace) (r : Response) :
  new_KagiAPI config = Return (kagiApi this) ->
  (forall request, adapter t request = Answered r) ->
  member (Object properties) "query" = String query ->
  match member (Object properties) "limit" with
  | Undefined => limit = None
  | Number n => limit = Some n /\ number_lt n (num 1) || number_gt n (num 100) = false
  | _ => False
  end ->
  exists c,
    CallTool this {| name := "kagi_search"; arguments := Object properties |} t
    = (Return (literal [("toolResult", response_data r)]), (t ++ [c])%list)
    /\ method c = GET /\ url c = "/search"
    /\ member (params c) "q" = String query.
Proof.
  intros Hnew Hanswer Hquery Hlimit.
  rewrite (CallTool_validated this _ _ t Hquery Hlimit).
  unfold try_search, try_catch, await, resolve.
  pose proof (search_issues (kagiApi this)
                {| SearchParams.q := query; SearchParams.limit := limit |} t) as Htrace.
  assert (Hdata : fst (search (kagiApi this)
                         {| SearchParams.q := query; SearchParams.limit := limit |} t)
                  = Return (response_data r)).
  { unfold search, get. rewrite await_request_data. cbn [fst].
    erewrite constructed_request_settles by eassumption. now rewrite Hanswer. }
  destruct (search (kagiApi this) _ t) as [outcome t']. cbn [fst snd] in *.
  subst outcome t'. eexists. repeat split.
Qed.

Lemma CallTool_success_witness :
  exists c,
    @CallTool (answering ok_response) example_server
      {| name := "kagi_search";
         arguments := Object [("query", String "rust"); ("limit", Number (num 3))] |} []
    = (Return (literal [("toolResult", response_data ok_response)]), [c])
    /\ method c = GET /\ url c = "/search"
    /\ member (params c) "q" = String "rust".
Proof.
  apply (@CallTool_success example_runtime (answering ok_response) example_config
           example_server [("query", String "rust"); ("limit", Number (num 3))]
           "rust" (Some (num 3)) [] ok_response).
  - reflexivity.
  - intros request. reflexivity.
  - reflexivity.
  - split; reflexivity.
Defined.

(** X11. A call without [limit] makes the client issue the very default the
    advertised schema declares for [limit]. *)
Theorem absent_limit_forwards_schema_default
  `{Transport} (this : KagiServer) (properties : list (string * JSValue))
  (query : string) (t : Trace) :
  member (Object properties) "query" = String query ->
  member (Object properties) "limit" = Undefined ->
  exists c,
    snd (CallTool this {| name := "kagi_search"; arguments := Object properties |} t)
    = (t ++ [c])%list
    /\ member (params c) "limit"
       = member (member (member (member searchTool "inputSchema") "properties") "limit")
                "default"
    /\ member (params c) "limit" = Number (num 10).
Proof.
  intros Hquery Hlimit.
  rewrite (@CallTool_validated _ this properties query None t Hquery)
    by now rewrite Hlimit.
  destruct (try_search_issues this
              {| SearchParams.q := query; SearchParams.limit := None |} t)
    as (c & Htrace & _ & _ & _ & Hl).
  exists c. split; [exact Htrace|]. rewrite Hl. split; reflexivity.
Qed.

Lemma absent_limit_forwards_schema_default_witness :
  exists c,
    snd (@CallTool (answering ok_response) example_server
           {| name := "kagi_search"; arguments := Object [("query", String "rust")] |} [])
    = [c]
    /\ member (params c) "limit"
       = member (member (member (member searchTool "inputSchema") "properties") "limit")
                "default"
    /\ member (params c) "limit" = Number (num 10).
Proof.
  apply (@absent_limit_forwards_schema_default (answering ok_response) example_server
           [("query", String "rust")] "rust" []); reflexivity.
Defined.

(** X15. The handler reads nothing but [query] and [limit]: two argument
    objects that agree on these two members are treated alike, whatever
    else they hold. *)
Theorem CallTool_ignores_other_members
  `{Transport} (this : KagiServer) (first second : list (string * JSValue)) (t : Trace) :
  member (Object first) "query" = member (Object second) "query" ->
  member (Object first) "limit" = member (Object second) "limit" ->
  CallTool this {| name := "kagi_search"; arguments := Object first |} t
  = CallTool this {| name := "kagi_search"; arguments := Object second |} t.
Proof.
  intros Hquery Hlimit. rewrite !CallTool_on_object, Hquery, Hlimit. reflexivity.
Qed.

Lemma CallTool_ignores_other_members_witness :
  @CallTool (answering ok_response) example_server
    {| name := "kagi_search";
       arguments := Object [("query", String "rust"); ("limit", Number (num 3));
                            ("offset", Number (num 40))] |} []
  = @CallTool (answering ok_response) example_server
      {| name := "kagi_search";
         arguments := Object [("limit", Number (num 3)); ("query", String "rust")] |} [].
Proof.
  apply (@CallTool_ignores_other_members (answering ok_response) example_server);
    reflexivity.
Defined.

Section ConstructedServer.
Context `{Runtime} `{Transport}.
Variables (config : KagiConfig.t) (this : KagiServer).
Hypothesis constructed : new_KagiAPI config = Return (kagiApi this).

(** How [search] settles on the server's client. *)
Lemma constructed_search_settles searchParams t :
  exists c,
    snd (search (kagiApi this) searchParams t) = (t ++ [c])%list
    /\ fst (search (kagiApi this) searchParams t)
       = match adapter t c with
         | Answered r => Return (response_data r)
         | Failed error =>
             match normalize error with
             | Return r => Return (response_data r)
             | Throw e => Throw e
             end
         end.
Proof.
  eexists. split; [apply search_issues|].
  unfold search, get. rewrite await_request_data. cbn [fst].
  erewrite constructed_request_settles by eassumption.
  now destruct (adapter t _).
Qed.

Lemma constructed_search_rejection searchParams t e :
  fst (search (kagiApi this) searchParams t) = Throw e ->
  e = TypeError \/ exists text code details, e = KagiError text code details.
Proof.
  destruct (constructed_search_settles searchParams t) as (c & _ & Hfst).
  rewrite Hfst. destruct (adapter t c) as [r|error]; [discriminate|].
  destruct (normalize_classified error) as (e' & He' & Hshape).
  rewrite He'. intros Heq. injection Heq as <-. exact Hshape.
Qed.

End ConstructedServer.

(** X16. On a server whose client was built by the constructor, a tool call
    rejects in three ways only: with method-not-found for a name other than
    [kagi_search], with invalid-params for refused arguments (no request
    being issued in either case), or with a [TypeError] after the request.
    A [KagiError], a plain [Error] and the transport's own error object never
    leave the handler. *)
Theorem CallTool_rejections
  `{Runtime} `{Transport} (config : KagiConfig.t) (this : KagiServer)
  (request : CallToolRequest) (t : Trace) (e : Thrown) :
  new_KagiAPI config = Return (kagiApi this) ->
  fst (CallTool this request t) = Throw e ->
  (e = McpError MethodNotFound "Unknown tool"
   /\ name request <> "kagi_search"
   /\ snd (CallTool this request t) = t)
  \/ (name request = "kagi_search"
      /\ snd (CallTool this request t) = t
      /\ exists message, e = McpError InvalidParams message)
  \/ (e = TypeError
      /\ name request = "kagi_search"
      /\ snd (CallTool this request t) <> t).
Proof.
  intros Hnew Hthrow.
  destruct (CallTool_cases this request t)
    as [[Hother Hm]|[[Hname [message Hm]]|[Hname [searchParams Hs]]]].
  - left. rewrite Hm in *. cbn [fst snd] in *. injection Hthrow as <-. now repeat split.
  - right. left. rewrite Hm in *. cbn [fst snd] in *. injection Hthrow as <-.
    repeat split; [assumption | now exists message].
  - right. right. rewrite Hs in *.
    destruct (try_search_issues this searchParams t) as (c & Htrace & _).
    assert (He : e = TypeError).
    { revert Hthrow. unfold try_search, try_catch, await, resolve, reject.
      pose proof (@constructed_search_rejection _ _ config this Hnew searchParams t) as Hclass.
      destruct (search (kagiApi this) searchParams t) as [[results|e'] t'];
        cbn [fst] in *; [discriminate|].
      destruct (Hclass e' eq_refl) as [->|(text & code & details & ->)].
      - intros Heq. now injection Heq as <-.
      - discriminate. }
    repeat split; [assumption | assumption |].
    rewrite Htrace. apply trace_grows.
Qed.

Lemma CallTool_rejections_witness :
  (TypeError = McpError MethodNotFound "Unknown tool"
   /\ "kagi_search" <> "kagi_search"
   /\ snd (@CallTool (failing Null) example_server
             {| name := "kagi_search"; arguments := Object [("query", String "rust")] |} [])
      = [])
  \/ ("kagi_search" = "kagi_search"
      /\ snd (@CallTool (failing Null) example_server
                {| name := "kagi_search"; arguments := Object [("query", String "rust")] |} [])
         = []
      /\ exists message, TypeError = McpError InvalidParams message)
  \/ (TypeError = TypeError
      /\ "kagi_search" = "kagi_search"
      /\ snd (@CallTool (failing Null) example_server
                {| name := "kagi_search"; arguments := Object [("query", String "rust")] |} [])
         <> []).
Proof.
  apply (@CallTool_rejections example_runtime (failing Null) example_config example_server
           {| name := "kagi_search"; arguments := Object [("query", String "rust")] |}
           [] TypeError); reflexivity.
Defined.

(** X17. End to end: when the backend refuses a validated tool call and
    reports a non-empty message, the host gets a result, not an exception:
    one text block reading ["Kagi API error: "] followed by the backend's
    message, with [isError] set, after the one request. *)
Theorem backend_failure_is_soft
  `{Runtime} `{Transport} (config : KagiConfig.t) (this : KagiServer)
  (properties : list (string * JSValue)) (query : string) (limit : option number)
  (t : Trace) (error : JSValue) (text : string) :
  new_KagiAPI config = Return (kagiApi this) ->
  (forall request, adapter t request = Failed error) ->
  nullish error = false ->
  (member error "response") ?. "data" ?. "message" = String text ->
  text <> "" ->
  member (Object properties) "query" = String query ->
  match member (Object properties) "limit" with
  | Undefined => limit = None
  | Number n => limit = Some n /\ number_lt n (num 1) || number_gt n (num 100) = false
  | _ => False
  end ->
  exists c,
    CallTool this {| name := "kagi_search"; arguments := Object properties |} t
    = (Return (literal [("content",
                         Array [literal [("type", String "text");
                                         ("text", String ("Kagi API error: " ++ text))]]);
                        ("isError", Boolean true)]),
       (t ++ [c])%list).
Proof.
  intros Hnew Hfail Hobj Hreported Htext Hquery Hlimit.
  rewrite (CallTool_validated this _ _ t Hquery Hlimit).
  destruct (@constructed_search_settles _ _ config this Hnew
              {| SearchParams.q := query; SearchParams.limit := limit |} t)
    as (c & Htrace & Hfst).
  rewrite Hfail in Hfst.
  destruct (@normalize_throws _ error Hobj) as (Hstring & _).
  rewrite (Hstring text Hreported Htext) in Hfst.
  unfold try_search, try_catch, await, resolve.
  destruct (search (kagiApi this) _ t) as [outcome t']. cbn [fst snd] in *.
  subst outcome t'. now exists c.
Qed.

Lemma backend_failure_is_soft_witness :
  exists c,
    @CallTool (failing (bad_request (String "Quota exceeded"))) example_server
      {| name := "kagi_search"; arguments := Object [("query", String "rust")] |} []
    = (Return (literal [("content",
                         Array [literal [("type", String "text");
                                         ("text", String "Kagi API error: Quota exceeded")]]);
                        ("isError", Boolean true)]),
       [c]).
Proof.
  apply (@backend_failure_is_soft example_runtime
           (failing (bad_request (String "Quota exceeded")))
           example_config example_server [("query", String "rust")] "rust" None []
           (bad_request (String "Quota exceeded")) "Quota exceeded").
  - reflexivity.
  - intros request. reflexivity.
  - reflexivity.
  - reflexivity.
  - discriminate.
  - reflexivity.
  - reflexivity.
Defined.

(* ================================================================== *)
(** * The advertised tool and the handler *)
(* ================================================================== *)

Section GuardedCall.
Context `{Runtime} `{Transport}.
Variables (config : KagiConfig.t) (this : KagiServer).
Hypothesis constructed : new_KagiAPI config = Return (kagiApi this).

(** On a constructed client the guarded client call issues its request and
    then either returns or rejects with a [TypeError]: no protocol fault
    comes out of it. *)
Lemma try_search_outcome searchParams t :
  exists c,
    snd (try_search this searchParams t) = (t ++ [c])%list
    /\ method c = GET /\ url c = "/search"
    /\ ((exists result, fst (try_search this searchParams t) = Return result)
        \/ fst (try_search this searchParams t) = Throw TypeError).
Proof.
  destruct (try_search_issues this searchParams t) as (c & Htrace & Hget & Hurl & _).
  exists c. repeat split; try assumption.
  pose proof (@constructed_search_rejection _ _ config this constructed searchParams t)
    as Hclass.
  unfold try_search, try_catch, await, resolve, reject.
  destruct (search (kagiApi this) searchParams t) as [[results|e] t']; cbn [fst] in *.
  - left. now eexists.
  - destruct (Hclass e eq_refl) as [->|(text & code & details & ->)].
    + now right.
    + left. now eexists.
Qed.

(** Hence a protocol fault is thrown only by the checks that come before
    the client call, which issue nothing. *)
Lemma CallTool_fault_cases (request : CallToolRequest) t :
  (name request <> "kagi_search"
   /\ CallTool this request t = (Throw (McpError MethodNotFound "Unknown tool"), t))
  \/ (name request = "kagi_search"
      /\ exists message,
           CallTool this request t = (Throw (McpError InvalidParams message), t))
  \/ (name request = "kagi_search"
      /\ (forall code message,
            fst (CallTool this request t) <> Throw (McpError code message))
      /\ exists c,
           snd (CallTool this request t) = (t ++ [c])%list
           /\ method c = GET /\ url c = "/search").
Proof.
  destruct (CallTool_cases this request t)
    as [Hunknown|[Hrefused|[Hname [searchParams Hs]]]]; [now left | now right; left |].
  right. right. split; [assumption|]. rewrite Hs.
  destruct (try_search_outcome searchParams t) as (c & Htrace & Hget & Hurl & Hfst).
  split.
  - intros code message Hfault.
    destruct Hfst as [[result Hr]|Hr]; rewrite Hr in Hfault; discriminate.
  - now exists c.
Qed.

End GuardedCall.

(** X12. The handler enforces the bounds the advertised schema declares.  On
    a server whose client was built by the constructor, at every trace, for
    a call with a string query and a numeric limit: the limit lies between
    the schema's [minimum] and [maximum] exactly when the call does not
    reject with an invalid-params fault, whatever its message.  Within the
    bounds the one request is issued; outside them none is. *)
Theorem schema_bounds_match_guard
  `{Runtime} `{Transport} (config : KagiConfig.t) (this : KagiServer)
  (members : list (string * Json)) (q : Q) (query : string) (t : Trace) :
  new_KagiAPI config = Return (kagiApi this) ->
  field "limit" members = Some (JNumber q) ->
  field "query" members = Some (JString query) ->
  let schema := member (member (member searchTool "inputSchema") "properties") "limit" in
  let request := received "kagi_search" (Some (JObject members)) in
  exists lo hi,
    member schema "minimum" = Number (Finite lo)
    /\ member schema "maximum" = Number (Finite hi)
    /\ ((lo <= q <= hi)%Q
        <-> forall message,
              fst (CallTool this request t) <> Throw (McpError InvalidParams message))
    /\ ((lo <= q <= hi)%Q -> exists c, snd (CallTool this request t) = (t ++ [c])%list)
    /\ (~ (lo <= q <= hi)%Q -> snd (CallTool this request t) = t).
Proof.
  intros Hnew Hlimit Hquery. cbv zeta.
  exists (inject_Z 1), (inject_Z 100). split; [reflexivity|]. split; [reflexivity|].
  unfold received. cbn [optional].
  destruct (parse_object members) as [properties Hparse].
  pose proof (member_parse "limit" members) as Hl.
  pose proof (member_parse "query" members) as Hq.
  rewrite Hlimit in Hl. rewrite Hquery in Hq. cbn [optional] in Hl, Hq.
  rewrite Hparse in *. rewrite CallTool_on_object, Hl, Hq. cbn [parse].
  destruct (@try_search_outcome _ _ config this Hnew
              {| SearchParams.q := query; SearchParams.limit := Some (Finite q) |} t)
    as (c & Htrace & _ & _ & Hfst).
  destruct (number_lt (Finite q) (num 1) || number_gt (Finite q) (num 100)) eqn:E.
  - assert (Hout : ~ (inject_Z 1 <= q <= inject_Z 100)%Q).
    { intros Hin. apply limit_guard_in_range in Hin. congruence. }
    split; [split|split].
    + intros Hin. contradiction.
    + intros Hnot. exfalso.
      now apply (Hnot "Limit must be a number between 1 and 100").
    + intros Hin. contradiction.
    + reflexivity.
  - assert (Hin : (inject_Z 1 <= q <= inject_Z 100)%Q) by now apply limit_guard_in_range.
    split; [split|split].
    + intros _ message Hfault.
      destruct Hfst as [[result Hr]|Hr]; rewrite Hr in Hfault; discriminate.
    + intros _. exact Hin.
    + intros _. now exists c.
    + intros Hout. contradiction.
Qed.

Lemma schema_bounds_match_guard_witness :
  exists lo hi,
    member (member (member (member searchTool "inputSchema") "properties") "limit") "minimum"
    = Number (Finite lo)
    /\ member (member (member (member searchTool "inputSchema") "properties") "limit")
              "maximum"
       = Number (Finite hi)
    /\ ((lo <= 1 # 2 <= hi)%Q
        <-> forall message,
              fst (@CallTool (answering ok_response) example_server
                     (received "kagi_search"
                        (Some (JObject [("query", JString "rust");
                                        ("limit", JNumber (1 # 2))]))) [])
              <> Throw (McpError InvalidParams message))
    /\ ((lo <= 1 # 2 <= hi)%Q ->
        exists c,
          snd (@CallTool (answering ok_response) example_server
                 (received "kagi_search"
                    (Some (JObject [("query", JString "rust");
                                    ("limit", JNumber (1 # 2))]))) []) = [c])
    /\ (~ (lo <= 1 # 2 <= hi)%Q ->
        snd (@CallTool (answering ok_response) example_server
               (received "kagi_search"
                  (Some (JObject [("query", JString "rust");
                                  ("limit", JNumber (1 # 2))]))) []) = []).
Proof.
  apply (@schema_bounds_match_guard example_runtime (answering ok_response)
           example_config example_server
           [("query", JString "rust"); ("limit", JNumber (1 # 2))] (1 # 2) "rust" []);
    reflexivity.
Defined.

(** X13. The listed tool is the one served.  On a server whose client was
    built by the constructor, at every trace, the name of a call is one the
    tool listing advertises exactly when the call does not reject with a
    method-not-found fault, whatever its message; a call under any other
    name rejects with that fault and issues nothing. *)
Theorem listed_tools_are_served
  `{Runtime} `{Transport} (config : KagiConfig.t) (this : KagiServer)
  (request : CallToolRequest) (t : Trace) :
  new_KagiAPI config = Return (kagiApi this) ->
  let listed :=
    exists tools tool,
      member ListTools "tools" = Array tools
      /\ In tool tools
      /\ member tool "name" = String (name request) in
  (listed
   <-> forall message,
         fst (CallTool this request t) <> Throw (McpError MethodNotFound message))
  /\ (~ listed ->
      CallTool this request t = (Throw (McpError MethodNotFound "Unknown tool"), t)).
Proof.
  intros Hnew. cbv zeta.
  assert (Hlisted : (exists tools tool,
                       member ListTools "tools" = Array tools
                       /\ In tool tools
                       /\ member tool "name" = String (name request))
                    <-> name request = "kagi_search").
  { split.
    - intros (tools & tool & Htools & Hin & Hname).
      injection Htools as <-. destruct Hin as [<-|[]]. now injection Hname.
    - intros Hname. exists [searchTool], searchTool. rewrite Hname.
      repeat split. now left. }
  destruct (@CallTool_fault_cases _ _ config this Hnew request t)
    as [[Hother Hm]|[[Hname [message Hm]]|[Hname [Hnofault _]]]].
  - split; [split|].
    + intros Hl. apply Hlisted in Hl. contradiction.
    + intros Hnot. exfalso. rewrite Hm in Hnot. now apply (Hnot "Unknown tool").
    + intros _. exact Hm.
  - split; [split|].
    + intros _ message' Hfault. rewrite Hm in Hfault. discriminate.
    + intros _. now apply Hlisted.
    + intros Hnot. exfalso. apply Hnot. now apply Hlisted.
  - split; [split|].
    + intros _ message. apply Hnofault.
    + intros _. now apply Hlisted.
    + intros Hnot. exfalso. apply Hnot. now apply Hlisted.
Qed.

Lemma listed_tools_are_served_witness :
  fst (@CallTool (failing network_error) example_server
         {| name := "kagi_search"; arguments := Object [("query", String "rust")] |} [])
  <> Throw (McpError MethodNotFound "Unknown tool").
Proof.
  apply (proj1 (proj1 (@listed_tools_are_served example_runtime (failing network_error)
                         example_config example_server
                         {| name := "kagi_search";
                            arguments := Object [("query", String "rust")] |} [] eq_refl))).
  exists [searchTool], searchTool. repeat split. now left.
Defined.

(** X14. On a server whose client was built by the constructor, whatever the
    call and the trace: the handler issues at most one request, a GET of
    [/search], and leaves the earlier trace as it was; and it issues none
    exactly when it rejects with a protocol fault. *)
Theorem CallTool_issues_at_most_one_request
  `{Runtime} `{Transport} (config : KagiConfig.t) (this : KagiServer)
  (request : CallToolRequest) (t : Trace) :
  new_KagiAPI config = Return (kagiApi this) ->
  (snd (CallTool this request t) = t
   \/ exists c,
        snd (CallTool this request t) = (t ++ [c])%list
        /\ method c = GET /\ url c = "/search")
  /\ (forall code message,
        fst (CallTool this request t) = Throw (McpError code message) ->
        snd (CallTool this request t) = t)
  /\ (snd (CallTool this request t) = t ->
      exists code message,
        fst (CallTool this request t) = Throw (McpError code message)).
Proof.
  intros Hnew.
  destruct (@CallTool_fault_cases _ _ config this Hnew request t)
    as [[_ Hm]|[[_ [message Hm]]|[_ [Hnofault (c & Htrace & Hget & Hurl)]]]].
  - rewrite Hm. cbn [fst snd]. split; [now left|]. split; [reflexivity|].
    intros _. now do 2 eexists.
  - rewrite Hm. cbn [fst snd]. split; [now left|]. split; [reflexivity|].
    intros _. now do 2 eexists.
  - split; [right; now exists c|]. split.
    + intros code message' Hfault. now apply Hnofault in Hfault.
    + intros Hsame. rewrite Htrace in Hsame. now apply trace_grows in Hsame.
Qed.

Lemma CallTool_issues_at_most_one_request_witness :
  snd (@CallTool (answering ok_response) example_server
         {| name := "kagi_search";
            arguments := Object [("query", String "rust"); ("limit", Number (num 0))] |} [])
  = [].
Proof.
  apply (proj1 (proj2 (@CallTool_issues_at_most_one_request example_runtime
                         (answering ok_response) example_config example_server
                         {| name := "kagi_search";
                            arguments := Object [("query", String "rust");
                                                 ("limit", Number (num 0))] |} [] eq_refl))
           InvalidParams "Limit must be a number between 1 and 100").
  reflexivity.
Defined.
